(** * rclone.js: the argument marshaller, the promise wrapper, the platform
    resolver and the self-updater of [rclone.js], embedded and verified.

    Every definition below follows one construct of [src/rclone.js]; the
    line numbers in the comments refer to that file. *)

From Stdlib Require Import List String Ascii Bool Arith NArith ZArith Lia.
From Stdlib Require Import DecimalString.
Import ListNotations.
Open Scope string_scope.
Open Scope list_scope.

Set Warnings "-register-all".

(** ** A JavaScript [switch] over strings, with fall-through *)

Module Switch.

(** One clause of a [switch]: [case "l":] or [default:], the assignment
    its statements make to the variable, and whether it ends in [break]. *)
Record clause := Clause {
  label : option string;
  body : string -> string;
  breaks : bool
}.

Definition case (l : string) (f : string -> string) (b : bool) : clause :=
  Clause (Some l) f b.
Definition default (f : string -> string) (b : bool) : clause :=
  Clause None f b.

(** Statements without an assignment leave the variable alone. *)
Definition skip : string -> string := fun v => v.
Definition assign (s : string) : string -> string := fun _ => s.

(** Execution from the head clause on: run the body, stop at a [break],
    otherwise fall into the next clause. *)
Fixpoint fall (cs : list clause) (v : string) : string :=
  match cs with
  | [] => v
  | c :: cs' =>
      let v' := body c v in
      if breaks c then v' else fall cs' v'
  end.

(** The first [case] whose label is [===] the discriminant. *)
Fixpoint from_case (d : string) (cs : list clause) (v : string)
  : option string :=
  match cs with
  | [] => None
  | c :: cs' =>
      match label c with
      | Some l => if String.eqb l d then Some (fall cs v)
                  else from_case d cs' v
      | None => from_case d cs' v
      end
  end.

(** No label matched: enter at [default], if there is one. *)
Fixpoint from_default (cs : list clause) (v : string) : string :=
  match cs with
  | [] => v
  | c :: cs' =>
      match label c with
      | None => fall cs v
      | Some _ => from_default cs' v
      end
  end.

(** [switch (v) { cs }], where the bodies assign to [v] itself; the
    discriminant is read once, before any clause runs. *)
Definition switch (cs : list clause) (v : string) : string :=
  match from_case v cs v with
  | Some r => r
  | None => from_default cs v
  end.

End Switch.

(** ** Platform resolver (lines 6-36) *)

Module Platform.
Import Switch.

(** Lines 8-22. *)
Definition platform_switch : list clause :=
  [ case "darwin" (assign "osx") true;
    case "freebsd" skip false;
    case "linux" skip false;
    case "openbsd" skip true;
    case "sunos" (assign "solaris") false;
    case "win32" (assign "windows") false;
    default skip true ].

(** Lines 24-36. *)
Definition arch_switch : list clause :=
  [ case "arm" skip false;
    case "arm64" skip false;
    case "mips" skip false;
    case "mipsel" skip true;
    case "x32" (assign "386") false;
    case "x64" (assign "amd64") false;
    default skip true ].

Definition platform (process_platform : string) : string :=
  switch platform_switch process_platform.

Definition arch (process_arch : string) : string :=
  switch arch_switch process_arch.

(** The pair the rest of the module reads. *)
Definition resolve (process_platform process_arch : string)
  : string * string :=
  (platform process_platform, arch process_arch).

End Platform.

(** ** Regular expressions, as far as line 135 needs them *)

Module Regex.

Inductive regex :=
| Eps
| Chr (c : ascii)
| Cat (r1 r2 : regex)
| Opt (r : regex)          (* r? *)
| AtEnd.                   (* $ , without the m flag *)

(** A literal run of characters. *)
Fixpoint lit (s : string) : regex :=
  match s with
  | EmptyString => Eps
  | String c s' => Cat (Chr c) (lit s')
  end.

(** Backtracking match of [r] at the head of [s]; [k] receives what is
    left of the input. *)
Fixpoint matchk (r : regex) (s : string) (k : string -> bool) : bool :=
  match r with
  | Eps => k s
  | Chr c =>
      match s with
      | String c' s' => if Ascii.eqb c c' then k s' else false
      | EmptyString => false
      end
  | Cat r1 r2 => matchk r1 s (fun s' => matchk r2 s' k)
  | Opt r' => matchk r' s k || k s
  | AtEnd =>
      match s with
      | EmptyString => k s
      | String _ _ => false
      end
  end.

(** [r.test(s)] for a regex without flags: a match may start at any
    index of [s], the end included. *)
Fixpoint test (r : regex) (s : string) : bool :=
  matchk r s (fun _ => true)
  || match s with
     | EmptyString => false
     | String _ s' => test r s'
     end.

End Regex.

(** ** Strings *)

Module Str.

(** [s.replace(pat, rep)] with a string pattern: the first occurrence
    only ([rep] holds no [$] pattern where the source calls it). *)
Fixpoint replace (pat rep s : string) : string :=
  if String.prefix pat s
  then rep ++ String.substring (String.length pat)
                               (String.length s - String.length pat) s
  else match s with
       | EmptyString => EmptyString
       | String c s' => String c (replace pat rep s')
       end.

(** [s] ends with [suffix]: some tail of [s] is [suffix]. *)
Fixpoint ends_with (suffix s : string) : bool :=
  String.eqb suffix s
  || match s with
     | EmptyString => false
     | String _ s' => ends_with suffix s'
     end.

End Str.

(** ** JavaScript values and the host the module runs on *)

(** A [Buffer]: a sequence of bytes.  Rocq's [string] is a list of 8-bit
    characters, which is what a Buffer holds.  A template literal turns a
    Buffer into text by decoding it (line 121); that conversion is the
    runtime's [Buffer_toString]. *)
Definition buffer := string.

(** [Buffer.concat(list)]. *)
Definition Buffer_concat (chunks : list buffer) : buffer :=
  String.concat "" chunks.

(** What adm-zip shows of an archive member: [name] is the base name,
    [entryName] the path inside the archive. *)
Record zip_entry := ZipEntry {
  name : string;
  entryName : string
}.

(** The built-in constructors the [constructor] test of line 54 can meet. *)
Inductive ctor :=
| CObject | CArray | CString | CNumber | CBoolean | CFunction
| CClass (class_name : string).

Section Model.

(** Numbers are IEEE doubles and host errors are objects of the
    runtime; both stay abstract.  Symbols and BigInts are left out. *)
Context {number : Type} {error : Type}.

Inductive value :=
| VUndefined
| VNull
| VBool (b : bool)
| VNum (n : number)
| VStr (s : string)
| VArray (items : list value)
  (** an object: the constructor its prototype carries ([None] for
      [Object.create(null)]) and its own enumerable properties in
      [Object.entries] order *)
| VObject (proto : option ctor) (props : list (string * value))
  (** a constructor function itself, such as the global [Object] *)
| VCtor (c : ctor).

(** An object literal [{ k: v, ... }]. *)
Definition literal (props : list (string * value)) : value :=
  VObject (Some CObject) props.

(** What the module takes from Node, its libraries and its process. *)
Record runtime := Runtime {
  number_truthy : number -> bool;        (* ToBoolean: false on 0, -0, NaN *)
  number_to_string : number -> string;   (* Number::toString *)
  object_to_string : value -> string;    (* ToString of a non-primitive *)
  Buffer_toString : buffer -> string;    (* buf.toString(): the bytes
                                            decoded as UTF-8, U+FFFD for
                                            what is not *)
  join : string -> string -> string;     (* path.join *)
  getEntries : buffer -> option (list zip_entry);
                                         (* new AdmZip(b).getEntries(),
                                            [None] when AdmZip throws *)
  dirname : string;                      (* __dirname *)
  process_platform : string;
  process_arch : string;
  env_RCLONE_EXECUTABLE : option string  (* process.env.RCLONE_EXECUTABLE *)
}.

Variable rt : runtime.

(** *** Operators of the language *)

(** [!!v]. *)
Definition truthy (v : value) : bool :=
  match v with
  | VUndefined | VNull => false
  | VBool b => b
  | VNum n => number_truthy rt n
  | VStr s => negb (String.eqb s "")
  | VArray _ | VObject _ _ | VCtor _ => true
  end.

(** [typeof v === "boolean"]. *)
Definition is_boolean (v : value) : bool :=
  match v with VBool _ => true | _ => false end.

(** [v === false]. *)
Definition is_false (v : value) : bool :=
  match v with VBool false => true | _ => false end.

(** [v === Object]. *)
Definition is_Object (v : value) : bool :=
  match v with VCtor CObject => true | _ => false end.

(** The template literal [`${ v }`]; for an object it runs the object's
    own conversion, which is the host's to answer. *)
Definition to_string (v : value) : string :=
  match v with
  | VUndefined => "undefined"
  | VNull => "null"
  | VBool true => "true"
  | VBool false => "false"
  | VNum n => number_to_string rt n
  | VStr s => s
  | VArray _ | VObject _ _ | VCtor _ => object_to_string rt v
  end.

(** Own property lookup. *)
Fixpoint own (key : string) (props : list (string * value))
  : option value :=
  match props with
  | [] => None
  | (k, v) :: props' => if String.eqb k key then Some v else own key props'
  end.

(** [v.constructor] on a value that is neither [undefined] nor [null]
    (line 54 reads it behind [!!flags &&]): an own property of that name
    shadows the one inherited from the prototype. *)
Definition constructor (v : value) : value :=
  match v with
  | VUndefined | VNull => VUndefined
  | VBool _ => VCtor CBoolean
  | VNum _ => VCtor CNumber
  | VStr _ => VCtor CString
  | VArray _ => VCtor CArray
  | VCtor _ => VCtor CFunction
  | VObject proto props =>
      match own "constructor" props with
      | Some c => c
      | None =>
          match proto with
          | Some c => VCtor c
          | None => VUndefined
          end
      end
  end.

(** [Object.entries(v)] where line 55 calls it, on an object. *)
Definition Object_entries (v : value) : list (string * value) :=
  match v with
  | VObject _ props => props
  | _ => []
  end.

(** [v.key] where the destructuring of lines 104-109 reads it: one of
    [beta], [stable], [version], [check], which no built-in prototype
    defines. *)
Definition member (key : string) (v : value) : value :=
  match v with
  | VObject _ props =>
      match own key props with
      | Some x => x
      | None => VUndefined
      end
  | _ => VUndefined
  end.

(** A default ([x = d] in a parameter list or a destructuring pattern)
    applies exactly when the value is [undefined]. *)
Definition default_to (d v : value) : value :=
  match v with
  | VUndefined => d
  | _ => v
  end.

(** *** Module constants (lines 6-42) *)

Definition platform : string := Platform.platform (process_platform rt).
Definition arch : string := Platform.arch (process_arch rt).

Definition RCLONE_DIR : string := join rt (dirname rt) "bin".

(** The template literal of line 39. *)
Definition executable_name : string :=
  "rclone" ++ (if String.eqb platform "windows" then ".exe" else "").

Definition DEFAULT_RCLONE_EXECUTABLE : string :=
  join rt RCLONE_DIR executable_name.

Definition RCLONE_EXECUTABLE : string :=
  match env_RCLONE_EXECUTABLE rt with
  | Some p => p
  | None => DEFAULT_RCLONE_EXECUTABLE
  end.

(** *** The direct API (lines 52-70) *)

(** The handle [spawn(file, args)] returns. *)
Record child_process := ChildProcess {
  file : string;
  argv : list value
}.

Definition spawn (f : string) (args : list value) : child_process :=
  ChildProcess f args.

(** [args.pop()]: the last element and the shortened array; [undefined]
    and the array as it was when it is empty. *)
Definition pop (args : list value) : value * list value :=
  (last args VUndefined, removelast args).

(** [args.push(x)]. *)
Definition push (args : list value) (x : value) : list value :=
  args ++ [x].

(** The callback of line 55, on the array it pushes to. *)
Definition push_flag (args : list value) (entry : string * value)
  : list value :=
  let (key, value) := entry in
  let key := if is_false value then ("no-" ++ key)%string else key in
  let args := push args (VStr ("--" ++ key)) in
  if negb (is_boolean value)
  then push args (VStr (to_string value))
  else args.

(** The test of line 54. *)
Definition is_flag_object (flags : value) : bool :=
  truthy flags && is_Object (constructor flags).

(** The argument vector handed to [spawn] (lines 53-67). *)
Definition api_args (args : list value) : list value :=
  let (flags, args) := pop args in
  if is_flag_object flags
  then fold_left push_flag (Object_entries flags) args
  else push args flags.

(** The tokens one entry adds. *)
Definition flag_tokens (entry : string * value) : list value :=
  push_flag [] entry.

Definition api (args : list value) : child_process :=
  spawn RCLONE_EXECUTABLE (api_args args).

(** *** Promises *)

(** What a promise of this module is rejected with: an error object
    (line 78) or the bytes of standard error (line 93). *)
Inductive reason :=
| ReasonError (e : error)
| ReasonBuffer (b : buffer).

Inductive promise :=
| Pending
| Fulfilled (b : buffer)
| Rejected (r : reason).

(** The [resolve] and [reject] functions of [new Promise]: they settle a
    pending promise and leave a settled one as it is. *)
Definition resolve (b : buffer) (p : promise) : promise :=
  match p with
  | Pending => Fulfilled b
  | _ => p
  end.

Definition reject (r : reason) (p : promise) : promise :=
  match p with
  | Pending => Rejected r
  | _ => p
  end.

(** *** The promise-based API (lines 73-97) *)

(** What the subprocess emits. *)
Inductive event :=
| Error (e : error)         (* subprocess "error" *)
| StdoutData (chunk : buffer)
| StdoutEnd
| StderrData (chunk : buffer)
| StderrEnd.

(** The closure of one call: the two arrays of line 81 and the promise. *)
Record listeners := Listeners {
  stdout : list buffer;
  stderr : list buffer;
  settled : promise
}.

Definition listening : listeners := Listeners [] [] Pending.

(** The five listeners of lines 77-95. *)
Definition on (st : listeners) (ev : event) : listeners :=
  match ev with
  | Error e =>
      Listeners (stdout st) (stderr st) (reject (ReasonError e) (settled st))
  | StdoutData chunk =>
      Listeners (stdout st ++ [chunk]) (stderr st) (settled st)
  | StdoutEnd =>
      Listeners (stdout st) (stderr st)
                (resolve (Buffer_concat (stdout st)) (settled st))
  | StderrData chunk =>
      Listeners (stdout st) (stderr st ++ [chunk]) (settled st)
  | StderrEnd =>
      if Nat.eqb (List.length (stderr st)) 0
      then st
      else Listeners (stdout st) (stderr st)
                     (reject (ReasonBuffer (Buffer_concat (stderr st)))
                             (settled st))
  end.

(** The state of the call after the subprocess emitted [events]. *)
Definition deliver (events : list event) : listeners :=
  fold_left on events listening.

(** [promises(...args)]: the subprocess it spawns and, once the
    subprocess emitted [events], the promise it returned. *)
Definition promises (args : list value) (events : list event)
  : child_process * promise :=
  (api args, settled (deliver events)).

(** The chunks a run of events carries on each stream, in order. *)
Definition stdout_chunks (events : list event) : list buffer :=
  flat_map (fun ev => match ev with StdoutData c => [c] | _ => [] end)
           events.

Definition stderr_chunks (events : list event) : list buffer :=
  flat_map (fun ev => match ev with StderrData c => [c] | _ => [] end)
           events.

(** A promise that is pending or fulfilled. *)
Definition not_rejected (p : promise) : Prop :=
  match p with
  | Rejected _ => False
  | _ => True
  end.

(** *** [get] (lines 244-254) *)

(** What the request and its response emit. *)
Inductive http_event :=
| RequestError (e : error)          (* "error" on the request *)
| Response                          (* the callback of line 246 runs *)
| ResponseData (chunk : buffer)
| ResponseEnd
| ResponseError (e : error).        (* "error" on the response *)

(** [chunks] exists once the response callback ran; [uncaught] holds an
    "error" event that found no listener, which Node throws. *)
Record fetch := Fetch {
  chunks : option (list buffer);
  fetched : promise;
  uncaught : option error
}.

Definition requested : fetch := Fetch None Pending None.

(** The listeners [get] registers: the response callback and, on the
    response, "data" and "end".  Nothing listens for "error". *)
Definition on_http (st : fetch) (ev : http_event) : fetch :=
  match uncaught st with
  | Some _ => st
  | None =>
      match ev with
      | RequestError e | ResponseError e =>
          Fetch (chunks st) (fetched st) (Some e)
      | Response => Fetch (Some []) (fetched st) None
      | ResponseData chunk =>
          match chunks st with
          | Some cs => Fetch (Some (cs ++ [chunk])) (fetched st) None
          | None => st
          end
      | ResponseEnd =>
          match chunks st with
          | Some cs =>
              Fetch (chunks st) (resolve (Buffer_concat cs) (fetched st)) None
          | None => st
          end
      end
  end.

(** [get(url)] after the transport emitted [events]. *)
Definition get (url : string) (events : list http_event) : fetch :=
  fold_left on_http events requested.

(** *** The self-updater (lines 103-144) *)

(** The file system, as far as the module looks at it: the paths that
    exist. *)
Definition files := list string.

(** [existsSync(path)]. *)
Definition existsSync (fs : files) (path : string) : bool :=
  existsb (String.eqb path) fs.

(** What a call can throw. *)
Inductive thrown :=
| TypeError                 (* destructuring [null] *)
| BadArchive                (* adm-zip cannot read the buffer *)
| ENOENT (path : string).   (* [chmodSync] on a path that does not exist *)

(** What the module does to the world, one constructor for each call
    it makes: [ExtractEntryTo] is [zip.extractEntryTo] with all adm-zip
    does in it, [ChmodSync] is the module's own [chmodSync]. *)
Inductive effect :=
| ConsoleLog (line : string)
| HttpsGet (url : string)
| Spawn (p : child_process)
| ExtractEntryTo (entry : zip_entry) (targetPath : string)
                 (maintainEntryPath overwrite : bool)
| ChmodSync (path : string) (mode : N).

(** [0o755]. *)
Definition mode_0o755 : N := 7 * 64 + 5 * 8 + 5.

(** [/rclone(\.exe)?$/]. *)
Definition rclone_pattern : Regex.regex :=
  Regex.Cat (Regex.lit "rclone")
            (Regex.Cat (Regex.Opt (Regex.lit ".exe")) Regex.AtEnd).

(** Where [zip.extractEntryTo(entry, targetPath, false, true)] writes:
    the entry's base name directly under the target. *)
Definition extracted_path (entry : zip_entry) (targetPath : string) : string :=
  join rt targetPath (name entry).

(** The [forEach] of lines 133-142 from [entries] on, on the file system
    [fs]: the effects in order and what stopped the loop, if anything.
    [chmodSync] throws when its path does not exist, which ends the loop
    before the report of line 140. *)
Fixpoint install_entries (entries : list zip_entry) (fs : files)
  : list effect * option thrown :=
  match entries with
  | [] => ([], None)
  | entry :: entries' =>
      if Regex.test rclone_pattern (name entry)
      then
        let fs := extracted_path entry RCLONE_DIR :: fs in
        if existsSync fs DEFAULT_RCLONE_EXECUTABLE
        then
          let (effects, stop) := install_entries entries' fs in
          (ExtractEntryTo entry RCLONE_DIR false true
           :: ChmodSync DEFAULT_RCLONE_EXECUTABLE mode_0o755
           :: ConsoleLog (Str.replace ("/" ++ name entry) "" (entryName entry)
                          ++ " is installed.")
           :: effects,
           stop)
        else
          ([ExtractEntryTo entry RCLONE_DIR false true],
           Some (ENOENT DEFAULT_RCLONE_EXECUTABLE))
      else install_entries entries' fs
  end.

(** The three effects of lines 136-140, for an entry that passed the
    test and whose [chmodSync] went through. *)
Definition installed (entry : zip_entry) : list effect :=
  [ ExtractEntryTo entry RCLONE_DIR false true;
    ChmodSync DEFAULT_RCLONE_EXECUTABLE mode_0o755;
    ConsoleLog (Str.replace ("/" ++ name entry) "" (entryName entry)
                ++ " is installed.") ].

(** The two [then] callbacks. *)
Inductive continuation :=
| ReportVersion        (* line 120 *)
| InstallArchive.      (* line 127 *)

Definition run_continuation (k : continuation) (body : buffer) (fs : files)
  : list effect * option thrown :=
  match k with
  | ReportVersion =>
      ([ConsoleLog ("The latest version is " ++ Buffer_toString rt body)],
       None)
  | InstallArchive =>
      match getEntries rt body with
      | Some entries =>
          let (effects, stop) := install_entries entries fs in
          (ConsoleLog "Extracting rclone..." :: effects, stop)
      | None => ([ConsoleLog "Extracting rclone..."], Some BadArchive)
      end
  end.

(** What a call of [selfupdate] hands to its caller. *)
Inductive returned :=
| ReturnsChildProcess (p : child_process)
| ReturnsPromise (url : string) (k : continuation)  (* get(url).then(k) *)
| Throws (t : thrown).

(** The call itself: what it logs before it returns, and what it
    returns.  [argument] is [undefined] when the caller passed nothing. *)
Definition selfupdate (fs : files) (argument : value)
  : list string * returned :=
  let options := default_to (literal []) argument in
  match options with
  | VNull => ([], Throws TypeError)     (* null cannot be destructured *)
  | _ =>
      let beta := default_to (VBool false) (member "beta" options) in
      let stable :=
        default_to (VBool (negb (truthy beta))) (member "stable" options) in
      let version := member "version" options in
      let check := default_to (VBool false) (member "check" options) in
      if existsSync fs RCLONE_EXECUTABLE
      then ([], ReturnsChildProcess (api [VStr "selfupdate"; options]))
      else
        let baseUrl :=
          if truthy stable then "https://downloads.rclone.org"
          else "https://beta.rclone.org" in
        let channel := if truthy stable then "current" else "beta-latest" in
        if truthy check
        then ([], ReturnsPromise (baseUrl ++ "/version.txt") ReportVersion)
        else
          let archiveName :=
            if truthy version
            then to_string version ++ "/rclone-" ++ to_string version
            else "rclone-" ++ channel in
          (["Downloading rclone..."],
           ReturnsPromise (baseUrl ++ "/" ++ archiveName ++ "-" ++ platform
                           ++ "-" ++ arch ++ ".zip")
                          InstallArchive)
  end%string.

(** Everything a call does, in order, when the fetch it starts (if any)
    ends with [body]; [None] is a fetch whose promise never settles.
    The second component is what was thrown, by the call or by its
    [then] callback. *)
Definition selfupdate_effects (fs : files) (argument : value)
                              (body : option buffer)
  : list effect * option thrown :=
  let (logged, r) := selfupdate fs argument in
  match r with
  | ReturnsChildProcess p => (map ConsoleLog logged ++ [Spawn p], None)
  | ReturnsPromise url k =>
      match body with
      | Some b =>
          let (effects, stop) := run_continuation k b fs in
          (map ConsoleLog logged ++ HttpsGet url :: effects, stop)
      | None => (map ConsoleLog logged ++ [HttpsGet url], None)
      end
  | Throws t => (map ConsoleLog logged, Some t)
  end.

(** What a promise of [get] hands to its [then] callback, once
    fulfilled. *)
Definition delivered (p : promise) : option buffer :=
  match p with
  | Fulfilled b => Some b
  | _ => None
  end.

(** The same with the fetch spelled out: [events] is what the transport
    emits for the request the call makes, and the [then] callback runs
    with what [get] resolved to, if it did. *)
Definition selfupdate_run (fs : files) (argument : value)
                          (events : list http_event)
  : list effect * option thrown :=
  match snd (selfupdate fs argument) with
  | ReturnsPromise url _ =>
      selfupdate_effects fs argument (delivered (fetched (get url events)))
  | _ => selfupdate_effects fs argument None
  end.

(** *** The command surface (lines 146-240) *)

Definition COMMANDS : list string :=
  [ "about"; "authorize"; "backend"; "cat"; "check"; "cleanup"; "config";
    "config create"; "config delete"; "config disconnect"; "config dump";
    "config edit"; "config file"; "config password"; "config providers";
    "config reconnect"; "config show"; "config update"; "config userinfo";
    "copy"; "copyto"; "copyurl"; "cryptcheck"; "cryptdecode"; "dedupe";
    "delete"; "deletefile"; "genautocomplete"; "genautocomplete bash";
    "genautocomplete fish"; "genautocomplete zsh"; "gendocs"; "hashsum";
    "link"; "listremotes"; "ls"; "lsd"; "lsf"; "lsjson"; "lsl"; "md5sum";
    "mkdir"; "mount"; "move"; "moveto"; "ncdu"; "obscure"; "purge"; "rc";
    "rcat"; "rcd"; "rmdir"; "rmdirs"; "serve"; "serve dlna"; "serve ftp";
    "serve http"; "serve restic"; "serve sftp"; "serve webdav"; "settier";
    "sha1sum"; "size"; "sync"; "touch"; "tree"; "version" ].

(** The function line 223 defines for [commandName]. *)
Definition api_command (commandName : string) (args : list value)
  : child_process :=
  api (VStr commandName :: args).

(** The function line 235 defines for [commandName]. *)
Definition promises_command (commandName : string) (args : list value)
                            (events : list event)
  : child_process * promise :=
  promises (VStr commandName :: args) events.

(** The properties [COMMANDS.forEach] defines on [api] and on
    [promises], in order. *)
Definition api_properties
  : list (string * (list value -> child_process)) :=
  map (fun commandName => (commandName, api_command commandName)) COMMANDS.

Definition promises_properties
  : list (string * (list value -> list event -> child_process * promise)) :=
  map (fun commandName => (commandName, promises_command commandName))
      COMMANDS.

End Model.

Arguments value : clear implicits.
Arguments runtime : clear implicits.
Arguments promise : clear implicits.
Arguments reason : clear implicits.
Arguments event : clear implicits.
Arguments http_event : clear implicits.
Arguments fetch : clear implicits.
Arguments listeners : clear implicits.
Arguments child_process : clear implicits.
Arguments effect : clear implicits.
Arguments returned : clear implicits.

(** ** The file system after an effect *)

Section FileSystem.
Context {number : Type} (rt : runtime number).

(** The paths known to exist after an effect.  adm-zip writes an
    extracted entry under the target, by its base name or, when asked to
    keep the archive's directories, by its path, and that path is added
    as the module spells it; nothing else of what the module does
    creates a file.  A list of [files] holds paths by their spelling:
    other spellings of a file that was written (through [.], [..] or a
    link) are not derived, so the list answers for the paths the module
    itself builds, [RCLONE_DIR] joined with a name, and shows what
    exists, not what does not.  File modes are not part of it. *)
Definition apply_effect (fs : files) (eff : effect number) : files :=
  match eff with
  | ExtractEntryTo entry targetPath maintainEntryPath _ =>
      join rt targetPath
           (if maintainEntryPath then entryName entry else name entry)
      :: fs
  | _ => fs
  end.

Definition apply_effects (effects : list (effect number)) (fs : files)
  : files :=
  fold_left apply_effect effects fs.

(** Effects that reach outside the machine or start a process. *)
Definition is_fetch (eff : effect number) : bool :=
  match eff with
  | HttpsGet _ => true
  | _ => false
  end.

Definition is_spawn (eff : effect number) : bool :=
  match eff with
  | Spawn _ => true
  | _ => false
  end.

End FileSystem.

(** ** Decoding UTF-8, for the sample host

    The decoder of the Encoding Standard: well-formed sequences are kept,
    every maximal ill-formed part becomes U+FFFD, here in its UTF-8
    encoding. *)

Module Utf8.

Definition replacement : string :=
  String (ascii_of_N 0xEF) (String (ascii_of_N 0xBF)
                                   (String (ascii_of_N 0xBD) "")).

(** Inside a sequence: the bytes still needed, the range the next one
    must lie in, and the bytes read so far. *)
Record state := State {
  needed : nat;
  lower : N;
  upper : N;
  pending : string
}.

Definition initial : state := State 0 0x80 0xBF "".

Definition between (lo hi b : N) : bool := N.leb lo b && N.leb b hi.

(** A byte outside a sequence. *)
Definition start (c : ascii) : string * state :=
  let b := N_of_ascii c in
  if N.leb b 0x7F then (String c "", initial)
  else if between 0xC2 0xDF b then ("", State 1 0x80 0xBF (String c ""))
  else if between 0xE0 0xEF b
  then ("", State 2 (if N.eqb b 0xE0 then 0xA0 else 0x80)
                    (if N.eqb b 0xED then 0x9F else 0xBF) (String c ""))
  else if between 0xF0 0xF4 b
  then ("", State 3 (if N.eqb b 0xF0 then 0x90 else 0x80)
                    (if N.eqb b 0xF4 then 0x8F else 0xBF) (String c ""))
  else (replacement, initial).

Definition step (st : state) (c : ascii) : string * state :=
  match needed st with
  | O => start c
  | S n =>
      if between (lower st) (upper st) (N_of_ascii c)
      then match n with
           | O => ((pending st ++ String c "")%string, initial)
           | S _ => ("", State n 0x80 0xBF (pending st ++ String c ""))
           end
      else let (out, st') := start c in ((replacement ++ out)%string, st')
  end.

Fixpoint run (st : state) (s : string) : string :=
  match s with
  | EmptyString =>
      match needed st with
      | O => ""
      | S _ => replacement
      end
  | String c s' => let (out, st') := step st c in (out ++ run st' s')%string
  end.

Definition decode (s : string) : string := run initial s.

End Utf8.

(** ** A small host to run the model on

    Numbers are integers printed in decimal, errors are their messages,
    buffers are decoded as UTF-8, paths are joined with a slash and every
    archive holds [entries]. *)

Module Sample.

Definition runtime_of (entries : list zip_entry)
                      (process_platform process_arch : string)
                      (env : option string) : runtime Z :=
  {| number_truthy := fun z => negb (Z.eqb z 0);
     number_to_string := fun z => NilEmpty.string_of_int (Z.to_int z);
     object_to_string := fun _ => "[object Object]";
     Buffer_toString := Utf8.decode;
     join := fun a b => (a ++ "/" ++ b)%string;
     getEntries := fun _ => Some entries;
     dirname := "/app";
     process_platform := process_platform;
     process_arch := process_arch;
     env_RCLONE_EXECUTABLE := env |}.

(** A Linux machine with nothing installed and no override. *)
Definition linux : runtime Z := runtime_of [] "linux" "x64" None.

(** The archive of a release: documentation and the executable. *)
Definition release : list zip_entry :=
  [ ZipEntry "README.txt" "rclone-v1.2.3-linux-amd64/README.txt";
    ZipEntry "rclone.1" "rclone-v1.2.3-linux-amd64/rclone.1";
    ZipEntry "rclone" "rclone-v1.2.3-linux-amd64/rclone" ].

(** An archive with a member whose name only ends in "rclone". *)
Definition lookalike : zip_entry :=
  ZipEntry "myrclone" "tools/myrclone".

Definition error := string.

End Sample.

(** * Properties *)

(** ** Platform resolver *)

Section PlatformFacts.
Import Platform.

Local Ltac by_label p :=
  repeat match goal with
         | |- context [String.eqb ?l p] =>
             destruct (String.eqb_spec l p); subst; try discriminate
         end;
  try reflexivity.

(** Names the switch of lines 8-22 leaves as they are. *)
Lemma platform_other (p : string) :
  p <> "darwin" -> p <> "sunos" -> p <> "win32" -> platform p = p.
Proof.
  intros Hd Hs Hw. unfold platform, Switch.switch; cbn -[String.eqb].
  by_label p.
  all: congruence.
Qed.

(** Names the switch of lines 24-36 leaves as they are. *)
Lemma arch_other (a : string) :
  a <> "x32" -> a <> "x64" -> arch a = a.
Proof.
  intros H32 H64. unfold arch, Switch.switch; cbn -[String.eqb].
  by_label a.
  all: congruence.
Qed.

(** The rows of the two tables that end in a [break]. *)
Lemma resolve_rows :
  platform "darwin" = "osx" /\ platform "freebsd" = "freebsd"
  /\ platform "linux" = "linux" /\ platform "openbsd" = "openbsd"
  /\ platform "win32" = "windows"
  /\ arch "arm" = "arm" /\ arch "arm64" = "arm64" /\ arch "mips" = "mips"
  /\ arch "mipsel" = "mipsel" /\ arch "x64" = "amd64".
Proof. repeat split; reflexivity. Qed.

(** C2 (as the code runs): [case "sunos"] and [case "x32"] have no
    [break], so control falls into the next clause: "sunos" resolves to
    "windows" and "x32" to "amd64", whatever the other component is. *)
Theorem resolve_sunos_x32_fall_through (p a : string) :
  fst (resolve "sunos" a) = "windows"
  /\ snd (resolve p "x32") = "amd64"
  /\ fst (resolve "sunos" a) <> "solaris"
  /\ snd (resolve p "x32") <> "386".
Proof. repeat split; cbn; discriminate. Qed.

End PlatformFacts.

(** ** Flag marshaller and direct API *)

Section MarshallerFacts.
Context {number : Type} (rt : runtime number).

Lemma pop_snoc (pos : list (value number)) (x : value number) :
  pop (pos ++ [x]) = (x, pos).
Proof. unfold pop. now rewrite last_last, removelast_last. Qed.

Lemma pop_cons (x y : value number) (args : list (value number)) :
  pop (x :: y :: args) = (fst (pop (y :: args)), x :: snd (pop (y :: args))).
Proof. reflexivity. Qed.

(** Pushing onto an array is appending what the entry adds. *)
Lemma push_flag_app
    (args : list (value number)) (entry : string * value number) :
  push_flag rt args entry = args ++ flag_tokens rt entry.
Proof.
  destruct entry as [key v]. unfold flag_tokens, push_flag, push.
  destruct (negb (is_boolean v)); cbn [app]; [| reflexivity].
  now rewrite <- app_assoc.
Qed.

Lemma fold_push_flag (entries : list (string * value number)) :
  forall args,
    fold_left (push_flag rt) entries args
    = args ++ flat_map (flag_tokens rt) entries.
Proof.
  induction entries as [| entry entries IH]; intros args;
    cbn [fold_left flat_map].
  - now rewrite app_nil_r.
  - now rewrite IH, push_flag_app, <- app_assoc.
Qed.

(** Both branches of lines 54-67, on an array with a last element. *)
Lemma api_args_snoc (pos : list (value number)) (x : value number) :
  api_args rt (pos ++ [x])
  = if is_flag_object rt x
    then pos ++ flat_map (flag_tokens rt) (Object_entries x)
    else pos ++ [x].
Proof.
  unfold api_args. rewrite pop_snoc.
  destruct (is_flag_object rt x); [apply fold_push_flag | reflexivity].
Qed.


(** An array whose first element is a string keeps it in front. *)
Lemma api_args_cons_string (s : string) (args : list (value number)) :
  api_args rt (VStr s :: args)
  = VStr s :: match args with
              | [] => []
              | _ :: _ => api_args rt args
              end.
Proof.
  destruct args as [| y args].
  { unfold api_args, is_flag_object; cbn. now rewrite andb_false_r. }
  unfold api_args. rewrite pop_cons.
  destruct (pop (y :: args)) as [flags rest]; cbn [fst snd].
  destruct (is_flag_object rt flags).
  - now rewrite !fold_push_flag.
  - reflexivity.
Qed.

(** C5: each entry of the flag object adds [--no-key] for [false],
    [--key] for [true], and [--key] followed by the value as a string
    for anything else; the argument vector is the positional arguments
    followed by these tokens in the order of the entries. *)
Theorem flag_set_marshalling
    (pos : list (value number)) (flags : value number) :
  is_flag_object rt flags = true ->
  api_args rt (pos ++ [flags])
  = pos ++ flat_map (flag_tokens rt) (Object_entries flags)
  /\ forall key v,
      (v = VBool false ->
       flag_tokens rt (key, v) = [VStr ("--no-" ++ key)])
      /\ (v = VBool true ->
          flag_tokens rt (key, v) = [VStr ("--" ++ key)])
      /\ ((forall b, v <> VBool b) ->
          flag_tokens rt (key, v)
          = [VStr ("--" ++ key); VStr (to_string rt v)]).
Proof.
  intros Hflags. split.
  - now rewrite api_args_snoc, Hflags.
  - intros key v. repeat split.
    + now intros ->.
    + now intros ->.
    + intros Hv. destruct v; try reflexivity. now destruct (Hv b).
Qed.


(** C9: without arguments [pop] yields [undefined], which is not a flag
    object and is pushed back: the process is spawned with the
    one-element vector [[undefined]]. *)
Theorem api_without_arguments :
  api_args rt [] = [VUndefined]
  /\ argv (api rt []) = [VUndefined]
  /\ List.length (argv (api rt [])) = 1.
Proof. repeat split. Qed.

(** C10: the entry points registered for a name of the catalog put the
    whole name, spaces included, in front as one element; what follows
    is what the marshaller makes of the caller's arguments.  The
    promise-based entry point spawns the same process. *)
Theorem command_name_is_one_token (commandName : string) :
  In commandName COMMANDS ->
  In (commandName, api_command rt commandName) (api_properties rt)
  /\ (forall error : Type,
        In (commandName, promises_command (error := error) rt commandName)
           (promises_properties rt))
  /\ forall args,
      argv (api_command rt commandName args)
      = VStr commandName :: match args with
                            | [] => []
                            | _ :: _ => api_args rt args
                            end
      /\ forall (error : Type) (events : list (event error)),
          fst (promises_command rt commandName args events)
          = api_command rt commandName args.
Proof.
  intros Hin. split; [| split].
  - unfold api_properties.
    apply (in_map (fun c => (c, api_command rt c))), Hin.
  - intros error. unfold promises_properties.
    apply (in_map (fun c => (c, promises_command (error := error) rt c))), Hin.
  - intros args. split.
    + unfold api_command, api, spawn; cbn [argv].
      apply api_args_cons_string.
    + reflexivity.
Qed.

End MarshallerFacts.

(** ** Promise-based API *)

Section PromiseFacts.
Context {number error : Type} (rt : runtime number).

(** A settled promise stays as it is. *)
Lemma resolve_settled (b : buffer) (p : promise error) :
  p <> Pending -> resolve b p = p.
Proof. now destruct p. Qed.

Lemma reject_settled (r : reason error) (p : promise error) :
  p <> Pending -> reject r p = p.
Proof. now destruct p. Qed.

Lemma on_settled (st : listeners error) (ev : event error) :
  settled st <> Pending -> settled (on st ev) = settled st.
Proof.
  intros H. destruct ev; cbn; auto using resolve_settled, reject_settled.
  destruct (Nat.eqb _ 0); cbn; auto using reject_settled.
Qed.

Lemma fold_on_settled (events : list (event error)) :
  forall st, settled st <> Pending ->
             settled (fold_left on events st) = settled st.
Proof.
  induction events as [| ev events IH]; intros st H; cbn [fold_left].
  - reflexivity.
  - rewrite IH; rewrite on_settled; auto.
Qed.

(** The two arrays hold the chunks seen so far, in order. *)
Lemma fold_on_stdout (events : list (event error)) :
  forall st, stdout (fold_left on events st)
             = stdout st ++ stdout_chunks events.
Proof.
  induction events as [| ev events IH]; intros st; cbn [fold_left].
  - cbn. now rewrite app_nil_r.
  - rewrite IH. destruct ev; cbn; try reflexivity.
    + now rewrite <- app_assoc.
    + now destruct (Nat.eqb _ 0).
Qed.

Lemma fold_on_stderr (events : list (event error)) :
  forall st, stderr (fold_left on events st)
             = stderr st ++ stderr_chunks events.
Proof.
  induction events as [| ev events IH]; intros st; cbn [fold_left].
  - cbn. now rewrite app_nil_r.
  - rewrite IH. destruct ev; cbn; try reflexivity.
    + now rewrite <- app_assoc.
    + now destruct (Nat.eqb _ 0).
Qed.

Lemma deliver_app (before after : list (event error)) :
  deliver (before ++ after) = fold_left on after (deliver before).
Proof. apply fold_left_app. Qed.

(** The promise after an event that settles a pending one. *)
Lemma deliver_settling (before after : list (event error)) (ev : event error)
                       (p : promise error) :
  settled (on (deliver before) ev) = p -> p <> Pending ->
  settled (deliver (before ++ ev :: after)) = p.
Proof.
  intros Hon Hp. rewrite deliver_app. cbn [fold_left].
  rewrite fold_on_settled; congruence.
Qed.

(** C7: while the promise is pending, the end of standard output
    fulfils it with the concatenation of the chunks of standard output
    so far, the end of standard error rejects it with the concatenation
    of the chunks of standard error when there are any (and does nothing
    otherwise), and an error event rejects it with the error; once it
    is settled, no later event changes it. *)
Theorem promises_settlement
    (args : list (value number)) (before after : list (event error)) :
  (snd (promises rt args before) <> Pending ->
   snd (promises rt args (before ++ after)) = snd (promises rt args before))
  /\ (snd (promises rt args before) = Pending ->
      snd (promises rt args (before ++ StdoutEnd :: after))
      = Fulfilled (Buffer_concat (stdout_chunks before))
      /\ (stderr_chunks before <> [] ->
          snd (promises rt args (before ++ StderrEnd :: after))
          = Rejected (ReasonBuffer (Buffer_concat (stderr_chunks before))))
      /\ (stderr_chunks before = [] ->
          snd (promises rt args (before ++ [StderrEnd])) = Pending)
      /\ forall e,
          snd (promises rt args (before ++ Error e :: after))
          = Rejected (ReasonError e)).
Proof.
  unfold promises; cbn [snd]. split.
  - intros H. rewrite deliver_app. now apply fold_on_settled.
  - intros Hpending.
    assert (Hout : stdout (deliver before) = stdout_chunks before)
      by apply (fold_on_stdout before listening).
    assert (Herr : stderr (deliver before) = stderr_chunks before)
      by apply (fold_on_stderr before listening).
    repeat split.
    + apply deliver_settling; [| discriminate].
      cbn. now rewrite Hpending, Hout.
    + intros Hsome. apply deliver_settling; [| discriminate].
      cbn. rewrite Herr.
      destruct (stderr_chunks before); [contradiction |].
      cbn. now rewrite Hpending.
    + intros Hnone. rewrite deliver_app. cbn.
      now rewrite Herr, Hnone.
    + intros e. apply deliver_settling; [| discriminate].
      cbn. now rewrite Hpending.
Qed.

End PromiseFacts.

(** ** [get] *)

Section FetchFacts.
Context {error : Type}.

Lemma on_http_not_rejected (st : fetch error) (ev : http_event error) :
  not_rejected (fetched st) -> not_rejected (fetched (on_http st ev)).
Proof.
  intros H. unfold on_http.
  destruct (uncaught st); [exact H |].
  destruct ev; cbn; try exact H; destruct (chunks st); cbn; try exact H.
  now destruct (fetched st).
Qed.

Lemma fold_on_http_not_rejected (events : list (http_event error)) :
  forall st, not_rejected (fetched st) ->
             not_rejected (fetched (fold_left on_http events st)).
Proof.
  induction events as [| ev events IH]; intros st H; cbn [fold_left].
  - exact H.
  - now apply IH, on_http_not_rejected.
Qed.

(** After an "error" without a listener nothing runs any more. *)
Lemma fold_on_http_uncaught (events : list (http_event error)) :
  forall st e, uncaught st = Some e -> fold_left on_http events st = st.
Proof.
  induction events as [| ev events IH]; intros st e H; cbn [fold_left].
  - reflexivity.
  - unfold on_http at 2. rewrite H. now apply (IH st e).
Qed.

(** C3 (as the code runs): [get] listens for no "error" event and never
    calls [reject].  Whatever the transport emits, the promise is not
    rejected; a failing request leaves it pending, with the error thrown
    out of the event loop instead, and so does a response that fails
    before its end. *)
Theorem get_never_rejects (url : string) (events : list (http_event error)) :
  (forall r, fetched (get url events) <> Rejected r)
  /\ (forall e,
        get url (RequestError e :: events) = Fetch None Pending (Some e))
  /\ (forall e chunk,
        get url (Response :: ResponseData chunk :: ResponseError e :: events)
        = Fetch (Some [chunk]) Pending (Some e)).
Proof.
  repeat split.
  - intros r Hr.
    pose proof (fold_on_http_not_rejected events requested I) as H.
    unfold get in Hr. now rewrite Hr in H.
  - intros e. unfold get; cbn [fold_left].
    now apply (fold_on_http_uncaught events _ e).
  - intros e chunk. unfold get; cbn [fold_left].
    now apply (fold_on_http_uncaught events _ e).
Qed.


Lemma on_http_settled (st : fetch error) (ev : http_event error) :
  fetched st <> Pending -> fetched (on_http st ev) = fetched st.
Proof.
  intros H. unfold on_http. destruct (uncaught st); [reflexivity |].
  destruct ev; cbn; try reflexivity; destruct (chunks st); cbn;
    auto using resolve_settled.
Qed.

Lemma fold_on_http_settled (events : list (http_event error)) :
  forall st, fetched st <> Pending ->
             fetched (fold_left on_http events st) = fetched st.
Proof.
  induction events as [| ev events IH]; intros st H; cbn [fold_left].
  - reflexivity.
  - rewrite IH; rewrite on_http_settled; auto.
Qed.

Lemma fold_on_http_data (cs : list buffer) :
  forall acc (p : promise error),
    fold_left on_http (map ResponseData cs) (Fetch (Some acc) p None)
    = Fetch (Some (acc ++ cs)) p None.
Proof.
  induction cs as [| c cs IH]; intros acc p; cbn [map fold_left].
  - now rewrite app_nil_r.
  - unfold on_http at 2; cbn. now rewrite IH, <- app_assoc.
Qed.

Lemma fold_on_http_pending (events : list (http_event error)) :
  forall st,
    fetched st = Pending ->
    (forall ev, In ev events -> ev <> ResponseEnd) ->
    fetched (fold_left on_http events st) = Pending.
Proof.
  induction events as [| ev events IH]; intros st Hst Hnone; cbn [fold_left].
  - exact Hst.
  - apply IH; [| intros ev' H; apply Hnone; now right].
    unfold on_http. destruct (uncaught st); [exact Hst |].
    destruct ev; cbn; try exact Hst; destruct (chunks st); cbn; try exact Hst.
    now destruct (Hnone ResponseEnd (or_introl eq_refl)).
Qed.

(** What [get] hands on after a response that ended, and after one
    that did not. *)
Lemma get_after_end
    (url : string) (cs : list buffer) (rest : list (http_event error)) :
  fetched (get url (Response :: map ResponseData cs ++ ResponseEnd :: rest))
  = Fulfilled (Buffer_concat cs).
Proof.
  unfold get. cbn [fold_left]. rewrite fold_left_app.
  unfold on_http at 3; cbn. rewrite fold_on_http_data. cbn [fold_left app].
  rewrite fold_on_http_settled; cbn; [reflexivity | discriminate].
Qed.

Lemma get_without_end (url : string) (events : list (http_event error)) :
  (forall ev, In ev events -> ev <> ResponseEnd) ->
  fetched (get url events) = Pending.
Proof. intros H. now apply fold_on_http_pending. Qed.

End FetchFacts.

(** ** The pattern of line 135 *)

Section RegexFacts.
Import Regex.

(** A literal matches exactly where the input starts with it. *)
Lemma matchk_lit (w : string) :
  forall s k,
    matchk (lit w) s k = true <->
    exists rest, s = (w ++ rest)%string /\ k rest = true.
Proof.
  induction w as [| c w IH]; intros s k; cbn.
  - split; [intros H; now exists s | now intros (rest & -> & H)].
  - destruct s as [| c' s].
    + split; [discriminate | now intros (rest & H & _)].
    + destruct (Ascii.eqb_spec c c') as [-> | Hne].
      * rewrite IH. split; intros (rest & H & Hk); exists rest.
        -- now subst.
        -- now injection H as ->.
      * split; [discriminate |]. intros (rest & H & _). congruence.
Qed.

(** Anchored at the start, the pattern matches two strings only. *)
Lemma matchk_rclone_pattern (s : string) :
  matchk rclone_pattern s (fun _ => true) = true <->
  s = "rclone" \/ s = "rclone.exe".
Proof.
  unfold rclone_pattern. cbn [matchk].
  rewrite matchk_lit. split.
  - intros (rest & -> & H). apply orb_true_iff in H as [H | H].
    + apply matchk_lit in H as (rest' & -> & H).
      destruct rest'; [now right | discriminate].
    + destruct rest; [now left | discriminate].
  - intros [-> | ->].
    + now exists "".
    + now exists ".exe".
Qed.

(** [test] finds a match at some tail of the input. *)
Lemma test_spec (r : regex) (s : string) :
  test r s = true <->
  exists before rest,
    s = (before ++ rest)%string /\ matchk r rest (fun _ => true) = true.
Proof.
  induction s as [| c s IH]; cbn [test]; rewrite orb_true_iff.
  - split.
    + intros [H | H]; [| discriminate]. now exists "", "".
    + intros (before & rest & H & Hm). left.
      destruct before; [| discriminate]. cbn in H. now subst.
  - rewrite IH. split.
    + intros [H | (before & rest & -> & Hm)].
      * now exists "", (String c s).
      * now exists (String c before), rest.
    + intros (before & rest & H & Hm).
      destruct before as [| c' before]; cbn in H.
      * left. now subst.
      * right. injection H as -> ->. now exists before, rest.
Qed.

Lemma ends_with_spec (suffix s : string) :
  Str.ends_with suffix s = true <->
  exists before, s = (before ++ suffix)%string.
Proof.
  induction s as [| c s IH]; cbn [Str.ends_with]; rewrite orb_true_iff.
  - split.
    + intros [H | H]; [| discriminate].
      apply String.eqb_eq in H as ->. now exists "".
    + intros (before & H). left.
      destruct before; [| discriminate]. cbn in H. subst.
      apply String.eqb_refl.
  - rewrite IH. split.
    + intros [H | (before & ->)].
      * apply String.eqb_eq in H as ->. now exists "".
      * now exists (String c before).
    + intros (before & H).
      destruct before as [| c' before]; cbn in H.
      * left. subst. apply String.eqb_refl.
      * right. injection H as -> ->. now exists before.
Qed.

(** The test of line 135 is a test on the end of the name. *)
Lemma test_rclone_pattern (s : string) :
  test rclone_pattern s
  = Str.ends_with "rclone" s || Str.ends_with "rclone.exe" s.
Proof.
  apply eq_true_iff_eq.
  rewrite orb_true_iff, test_spec, !ends_with_spec. split.
  - intros (before & rest & -> & H).
    apply matchk_rclone_pattern in H as [-> | ->];
      [left | right]; now exists before.
  - intros [(before & ->) | (before & ->)].
    + exists before, "rclone". split; [reflexivity |].
      apply matchk_rclone_pattern. now left.
    + exists before, "rclone.exe". split; [reflexivity |].
      apply matchk_rclone_pattern. now right.
Qed.

End RegexFacts.

(** ** Self-updater *)

Section SelfUpdateFacts.
Context {number : Type} (rt : runtime number).

Lemma truthy_default_false (v : value number) :
  truthy rt (default_to (VBool false) v) = truthy rt v.
Proof. now destruct v. Qed.

(** Only an object has a truthy member. *)
Lemma truthy_member_object (key : string) (v : value number) :
  truthy rt (member key v) = true ->
  exists proto props, v = VObject proto props.
Proof. destruct v; try discriminate. intros _. now eexists _, _. Qed.

Lemma existsSync_cons (fs : files) (p q : string) :
  existsSync (p :: fs) q = String.eqb q p || existsSync fs q.
Proof. reflexivity. Qed.

(** With the default executable in place no [chmodSync] throws, and the
    loop handles every entry that passes the test. *)
Lemma install_entries_present (entries : list zip_entry) :
  forall fs,
    existsSync fs (DEFAULT_RCLONE_EXECUTABLE rt) = true ->
    install_entries rt entries fs
    = (flat_map (installed rt)
         (filter (fun e => Regex.test rclone_pattern (name e)) entries),
       None).
Proof.
  induction entries as [| e entries IH]; intros fs Hfs;
    cbn [install_entries filter].
  - reflexivity.
  - destruct (Regex.test rclone_pattern (name e)); [| now apply IH].
    rewrite existsSync_cons, Hfs, orb_true_r.
    rewrite IH by now rewrite existsSync_cons, Hfs, orb_true_r.
    reflexivity.
Qed.

(** The same when the first entry that passes the test is the
    executable itself. *)
Lemma install_entries_first (entries : list zip_entry) :
  forall fs,
    (forall e rest,
        filter (fun e => Regex.test rclone_pattern (name e)) entries
        = e :: rest ->
        name e = executable_name rt
        \/ existsSync fs (DEFAULT_RCLONE_EXECUTABLE rt) = true) ->
    install_entries rt entries fs
    = (flat_map (installed rt)
         (filter (fun e => Regex.test rclone_pattern (name e)) entries),
       None).
Proof.
  induction entries as [| e entries IH]; intros fs Hfirst;
    cbn [install_entries filter] in *.
  - reflexivity.
  - destruct (Regex.test rclone_pattern (name e)); [| now apply IH].
    assert (Hnow : existsSync (extracted_path rt e (RCLONE_DIR rt) :: fs)
                              (DEFAULT_RCLONE_EXECUTABLE rt) = true).
    { rewrite existsSync_cons.
      destruct (Hfirst e _ eq_refl) as [Hname | Hfs].
      - unfold extracted_path, DEFAULT_RCLONE_EXECUTABLE.
        now rewrite Hname, String.eqb_refl.
      - now rewrite Hfs, orb_true_r. }
    rewrite Hnow, (install_entries_present entries _ Hnow). reflexivity.
Qed.

(** Whatever happens, only entries that pass the test are extracted. *)
Lemma install_entries_only_matching (entries : list zip_entry) :
  forall fs e target m o,
    In (ExtractEntryTo e target m o) (fst (install_entries rt entries fs)) ->
    In e entries
    /\ (Str.ends_with "rclone" (name e)
        || Str.ends_with "rclone.exe" (name e)) = true
    /\ target = RCLONE_DIR rt /\ m = false /\ o = true.
Proof.
  induction entries as [| e0 entries IH]; intros fs e target m o;
    cbn [install_entries].
  - intros [].
  - destruct (Regex.test rclone_pattern (name e0)) eqn:Htest.
    + set (fs' := extracted_path rt e0 (RCLONE_DIR rt) :: fs).
      assert (Hhead :
                ExtractEntryTo (number := number) e0 (RCLONE_DIR rt) false true
                = ExtractEntryTo e target m o ->
                In e (e0 :: entries)
                /\ (Str.ends_with "rclone" (name e)
                    || Str.ends_with "rclone.exe" (name e)) = true
                /\ target = RCLONE_DIR rt /\ m = false /\ o = true).
      { intros [= <- <- <- <-]. rewrite <- test_rclone_pattern.
        repeat split; auto. now left. }
      destruct (existsSync fs' _).
      * specialize (IH fs' e target m o).
        destruct (install_entries rt entries fs') as [effects stop].
        cbn [fst In] in *.
        intros [H | [H | [H | H]]]; try discriminate H; [now apply Hhead |].
        destruct (IH H) as (Hin & Hrest). split; [now right | exact Hrest].
      * cbn [fst In]. intros [H | []]. now apply Hhead.
    + intros H. destruct (IH _ _ _ _ _ H) as (Hin & Hrest).
      split; [now right | exact Hrest].
Qed.

(** C1 (as the code runs): when the executable exists the call returns
    what [api] returns, the handle of the spawned process, and never a
    promise; with no argument, or with an empty object, the process gets
    the one token "selfupdate".  ([null] cannot be destructured and
    throws.) *)
Theorem selfupdate_delegate_returns_child_process
    (fs : files) (argument : value number) :
  existsSync fs (RCLONE_EXECUTABLE rt) = true ->
  (forall url k, snd (selfupdate rt fs argument) <> ReturnsPromise url k)
  /\ selfupdate rt fs VUndefined
     = ([], ReturnsChildProcess
              (spawn (RCLONE_EXECUTABLE rt) [VStr "selfupdate"]))
  /\ selfupdate rt fs (literal [])
     = ([], ReturnsChildProcess
              (spawn (RCLONE_EXECUTABLE rt) [VStr "selfupdate"]))
  /\ (selfupdate rt fs argument = ([], Throws TypeError)
      \/ selfupdate rt fs argument
         = ([], ReturnsChildProcess
                  (api rt [VStr "selfupdate";
                           default_to (literal []) argument]))).
Proof.
  intros Hexists. unfold selfupdate. repeat split.
  - intros url k. destruct argument; cbn; rewrite ?Hexists; discriminate.
  - cbn. now rewrite Hexists.
  - cbn. now rewrite Hexists.
  - destruct argument; cbn; rewrite ?Hexists; auto.
Qed.

(** C8: with no executable in place and a truthy [check], the call logs
    nothing and fetches [version.txt] from the stable host when [stable]
    is truthy and from the beta host otherwise, where [stable] is the
    given value, or the negation of [beta] when none is given.  When the
    response has delivered its chunks and ended, the callback logs the
    version, which is the text of the chunks in order; while the response
    has not ended, nothing is logged.  Nothing is downloaded, extracted or
    made executable, and nothing is thrown. *)
Theorem selfupdate_check
    (fs : files) (options : value number) (stable : bool) :
  existsSync fs (RCLONE_EXECUTABLE rt) = false ->
  truthy rt (member "check" options) = true ->
  (member "stable" options = VUndefined ->
   stable = negb (truthy rt (member "beta" options))) ->
  (member "stable" options <> VUndefined ->
   stable = truthy rt (member "stable" options)) ->
  let baseUrl := if stable then "https://downloads.rclone.org"
                 else "https://beta.rclone.org" in
  selfupdate rt fs options
  = ([], ReturnsPromise (baseUrl ++ "/version.txt") ReportVersion)
  /\ (forall body,
        selfupdate_effects rt fs options (Some body)
        = ([ HttpsGet (baseUrl ++ "/version.txt");
             ConsoleLog ("The latest version is "
                         ++ Buffer_toString rt body) ],
           None))
  /\ (forall (error : Type) (chunks : list buffer)
             (rest : list (http_event error)),
        selfupdate_run rt fs options
          (Response :: map ResponseData chunks ++ ResponseEnd :: rest)
        = ([ HttpsGet (baseUrl ++ "/version.txt");
             ConsoleLog ("The latest version is "
                         ++ Buffer_toString rt (Buffer_concat chunks)) ],
           None))
  /\ (forall (error : Type) (events : list (http_event error)),
        (forall ev, In ev events -> ev <> ResponseEnd) ->
        selfupdate_run rt fs options events
        = ([HttpsGet (baseUrl ++ "/version.txt")], None))
  /\ (forall (error : Type) (events : list (http_event error)) eff,
        In eff (fst (selfupdate_run rt fs options events)) ->
        eff = HttpsGet (baseUrl ++ "/version.txt")
        \/ exists line, eff = ConsoleLog line).
Proof.
  intros Hexists Hcheck Hdefault Hgiven baseUrl.
  destruct (truthy_member_object _ _ Hcheck) as (proto & props & ->).
  assert (Hcall : selfupdate rt fs (VObject proto props)
                  = ([], ReturnsPromise (baseUrl ++ "/version.txt")
                                        ReportVersion)).
  { unfold selfupdate. cbn [default_to literal].
    rewrite Hexists, !truthy_default_false, Hcheck.
    do 2 f_equal. f_equal. subst baseUrl.
    destruct (member "stable" (VObject proto props)) eqn:Hs;
      try (rewrite Hgiven by discriminate; reflexivity).
    cbn [default_to]. now rewrite Hdefault. }
  assert (Hsome : forall body,
             selfupdate_effects rt fs (VObject proto props) (Some body)
             = ([ HttpsGet (baseUrl ++ "/version.txt");
                  ConsoleLog ("The latest version is "
                              ++ Buffer_toString rt body) ],
                None)).
  { intros body. unfold selfupdate_effects. now rewrite Hcall. }
  assert (Hnone : selfupdate_effects rt fs (VObject proto props) None
                  = ([HttpsGet (baseUrl ++ "/version.txt")], None)).
  { unfold selfupdate_effects. now rewrite Hcall. }
  split; [exact Hcall |]. split; [exact Hsome |]. repeat split.
  - intros error chunks rest. unfold selfupdate_run. rewrite Hcall.
    cbn [snd]. rewrite get_after_end. apply Hsome.
  - intros error events Hquiet. unfold selfupdate_run. rewrite Hcall.
    cbn [snd]. rewrite get_without_end by exact Hquiet. exact Hnone.
  - intros error events eff. unfold selfupdate_run. rewrite Hcall.
    cbn [snd].
    destruct (delivered (fetched (get _ events))) as [body |].
    + rewrite Hsome. cbn. intros [<- | [<- | []]]; eauto.
    + rewrite Hnone. cbn. intros [<- | []]. now left.
Qed.

(** C4 (amended): after the line "Extracting rclone...", the entries
    whose base name ends in "rclone" or "rclone.exe", and no others, are
    extracted in archive order, without their directories, into the
    install directory, each extraction followed by setting the mode of
    the default executable to rwxr-xr-x and by a report; this when the
    default executable is there to be changed, because it exists already
    or because the first such entry has its name. *)
Theorem install_archive_effects
    (fs : files) (body : buffer) (entries : list zip_entry) :
  getEntries rt body = Some entries ->
  let matching :=
    filter (fun e => Str.ends_with "rclone" (name e)
                     || Str.ends_with "rclone.exe" (name e))
           entries in
  (forall e rest,
      matching = e :: rest ->
      name e = executable_name rt
      \/ existsSync fs (DEFAULT_RCLONE_EXECUTABLE rt) = true) ->
  run_continuation rt InstallArchive body fs
  = (ConsoleLog "Extracting rclone..." :: flat_map (installed rt) matching,
     None)
  /\ map (N.testbit mode_0o755) [8; 7; 6; 5; 4; 3; 2; 1; 0]%N
     = [true; true; true; true; false; true; true; false; true].
Proof.
  intros Hzip matching Hfirst.
  assert (Hsame : filter (fun e => Regex.test rclone_pattern (name e)) entries
                  = matching).
  { apply filter_ext. intros e. apply test_rclone_pattern. }
  split; [| reflexivity].
  cbn [run_continuation]. rewrite Hzip.
  rewrite install_entries_first; rewrite Hsame; [reflexivity | exact Hfirst].
Qed.

End SelfUpdateFacts.

(** * The properties at work on the sample host *)

(** [rclone.ls("source:", { "max-depth": 1, verbose: true,
    progress: false })]. *)
Lemma flag_set_marshalling_witness :
  api_args Sample.linux
    [ VStr "ls"; VStr "source:";
      literal [ ("max-depth", VNum 1%Z); ("verbose", VBool true);
                ("progress", VBool false) ] ]
  = [ VStr "ls"; VStr "source:"; VStr "--max-depth"; VStr "1";
      VStr "--verbose"; VStr "--no-progress" ]
  /\ flag_tokens Sample.linux ("progress", VBool false)
     = [VStr "--no-progress"]
  /\ flag_tokens Sample.linux ("verbose", VBool true) = [VStr "--verbose"]
  /\ flag_tokens Sample.linux ("max-depth", VNum 1%Z)
     = [VStr "--max-depth"; VStr "1"].
Proof.
  destruct (flag_set_marshalling Sample.linux
              [VStr "ls"; VStr "source:"]
              (literal [ ("max-depth", VNum 1%Z); ("verbose", VBool true);
                         ("progress", VBool false) ])
              eq_refl) as [Hargs Htokens].
  split; [exact Hargs |].
  destruct (Htokens "progress" (VBool false)) as (Hfalse & _ & _).
  destruct (Htokens "verbose" (VBool true)) as (_ & Htrue & _).
  destruct (Htokens "max-depth" (VNum 1%Z)) as (_ & _ & Hother).
  split; [exact (Hfalse eq_refl) |].
  split; [exact (Htrue eq_refl) |].
  apply Hother. intros b; discriminate.
Defined.



(** "boom" on standard error, then both streams end. *)
Lemma promises_settlement_witness :
  snd (promises (error := Sample.error) Sample.linux [VStr "ls"]
         ([StderrData "bo"; StderrData "om"] ++ StderrEnd :: [StdoutEnd]))
  = Rejected (ReasonBuffer "boom")
  /\ snd (promises (error := Sample.error) Sample.linux [VStr "ls"]
            ([StdoutData "hel"; StdoutData "lo"] ++ StdoutEnd :: [StderrEnd]))
     = Fulfilled "hello"
  /\ snd (promises (error := Sample.error) Sample.linux [VStr "ls"]
            ([] ++ Error "ENOENT" :: [StdoutEnd; StderrEnd]))
     = Rejected (ReasonError "ENOENT")
  /\ snd (promises (error := Sample.error) Sample.linux [VStr "ls"]
            ([StdoutEnd] ++ [StderrData "late"; StderrEnd]))
     = Fulfilled "".
Proof.
  destruct (promises_settlement (error := Sample.error) Sample.linux
              [VStr "ls"] [StderrData "bo"; StderrData "om"] [StdoutEnd])
    as (_ & Hpending).
  destruct (Hpending eq_refl) as (_ & Hstderr & _ & _).
  destruct (promises_settlement (error := Sample.error) Sample.linux
              [VStr "ls"] [StdoutData "hel"; StdoutData "lo"] [StderrEnd])
    as (_ & Hpending').
  destruct (Hpending' eq_refl) as (Hstdout & _ & _ & _).
  destruct (promises_settlement (error := Sample.error) Sample.linux
              [VStr "ls"] [] [StdoutEnd; StderrEnd])
    as (_ & Hpending'').
  destruct (Hpending'' eq_refl) as (_ & _ & _ & Herror).
  destruct (promises_settlement (error := Sample.error) Sample.linux
              [VStr "ls"] [StdoutEnd] [StderrData "late"; StderrEnd])
    as (Hsettled & _).
  split; [apply Hstderr; discriminate |].
  split; [exact Hstdout |].
  split; [exact (Herror "ENOENT") |].
  apply Hsettled. discriminate.
Defined.

(** [selfupdate({ check: true, beta: true })] with nothing installed,
    answered by "v1.2" and ".3". *)
Lemma selfupdate_check_witness :
  selfupdate Sample.linux []
    (literal [("check", VBool true); ("beta", VBool true)])
  = ([], ReturnsPromise "https://beta.rclone.org/version.txt" ReportVersion)
  /\ selfupdate_effects Sample.linux []
       (literal [("check", VBool true); ("beta", VBool true)])
       (Some "v1.2.3")
     = ([ HttpsGet "https://beta.rclone.org/version.txt";
          ConsoleLog "The latest version is v1.2.3" ],
        None)
  /\ selfupdate_run (error := Sample.error) Sample.linux []
       (literal [("check", VBool true); ("beta", VBool true)])
       (Response :: map ResponseData ["v1.2"; ".3"] ++ ResponseEnd :: [])
     = ([ HttpsGet "https://beta.rclone.org/version.txt";
          ConsoleLog "The latest version is v1.2.3" ],
        None)
  /\ selfupdate_run (error := Sample.error) Sample.linux []
       (literal [("check", VBool true); ("beta", VBool true)])
       [RequestError "ENOTFOUND"]
     = ([HttpsGet "https://beta.rclone.org/version.txt"], None).
Proof.
  destruct (selfupdate_check Sample.linux []
              (literal [("check", VBool true); ("beta", VBool true)])
              false eq_refl eq_refl)
    as (Hcall & Heffects & Hrun & Hquiet & _).
  - reflexivity.
  - intros Hgiven. now destruct Hgiven.
  - split; [exact Hcall |].
    split; [exact (Heffects "v1.2.3") |].
    split; [exact (Hrun Sample.error ["v1.2"; ".3"] []) |].
    apply (Hquiet Sample.error). intros ev [<- | []]. discriminate.
Defined.

(** [selfupdate({ beta: true })] with [bin/rclone] in place. *)
Lemma selfupdate_delegate_witness :
  selfupdate Sample.linux ["/app/bin/rclone"] (literal [("beta", VBool true)])
  = ([], ReturnsChildProcess
           (ChildProcess "/app/bin/rclone" [VStr "selfupdate"; VStr "--beta"])).
Proof.
  destruct (selfupdate_delegate_returns_child_process Sample.linux
              ["/app/bin/rclone"] (literal [("beta", VBool true)]) eq_refl)
    as (_ & _ & _ & [Hthrows | Hhandle]).
  - discriminate Hthrows.
  - exact Hhandle.
Defined.

(** The archive of a release, installed on a machine without rclone. *)
Lemma install_archive_effects_witness :
  run_continuation (Sample.runtime_of Sample.release "linux" "x64" None)
                   InstallArchive "archive" []
  = ([ ConsoleLog "Extracting rclone...";
       ExtractEntryTo (ZipEntry "rclone" "rclone-v1.2.3-linux-amd64/rclone")
                      "/app/bin" false true;
       ChmodSync "/app/bin/rclone" 493;
       ConsoleLog "rclone-v1.2.3-linux-amd64 is installed." ],
     None).
Proof.
  destruct (install_archive_effects
              (Sample.runtime_of Sample.release "linux" "x64" None)
              [] "archive" Sample.release eq_refl)
    as [Heffects _].
  - intros e rest Hfirst. cbn in Hfirst. injection Hfirst as <- _.
    left. reflexivity.
  - exact Heffects.
Defined.

(** [rclone["config create"]("remote", "drive")]. *)
Lemma command_name_is_one_token_witness :
  argv (api_command Sample.linux "config create" [VStr "remote"; VStr "drive"])
  = [VStr "config create"; VStr "remote"; VStr "drive"]
  /\ argv (fst (promises_command (error := Sample.error) Sample.linux
                  "serve http" [] []))
     = [VStr "serve http"].
Proof.
  assert (Hcreate : In "config create" COMMANDS)
    by (cbn; repeat (try (left; reflexivity); right)).
  assert (Hserve : In "serve http" COMMANDS)
    by (cbn; repeat (try (left; reflexivity); right)).
  destruct (command_name_is_one_token Sample.linux "config create" Hcreate)
    as (_ & _ & Hargs).
  destruct (Hargs [VStr "remote"; VStr "drive"]) as [Hdirect _].
  destruct (command_name_is_one_token Sample.linux "serve http" Hserve)
    as (_ & _ & Hargs').
  destruct (Hargs' []) as [Hdirect' Hpromise].
  split; [exact Hdirect |].
  rewrite (Hpromise Sample.error []). exact Hdirect'.
Defined.

(** C4 (as stated) fails: an entry named "myrclone" passes the test of
    line 135 and is extracted, though its base name is neither "rclone"
    nor "rclone.exe". *)
Lemma lookalike_entry_is_extracted :
  ~ (forall (entries : list zip_entry) (e : zip_entry),
       In (ExtractEntryTo e "/app/bin" false true)
          (fst (run_continuation
                  (Sample.runtime_of entries "linux" "x64" None)
                  InstallArchive "archive" []))
       -> name e = "rclone" \/ name e = "rclone.exe").
Proof.
  intros H.
  destruct (H (Sample.release ++ [Sample.lookalike]) Sample.lookalike)
    as [Hname | Hname].
  - vm_compute. do 4 right. left. reflexivity.
  - discriminate Hname.
  - discriminate Hname.
Defined.

(** * Further properties of the code *)

(** ** Platform resolver and module constants *)

Section ConstantFacts.
Context {number : Type} (rt : runtime number).

Local Ltac by_eqb :=
  repeat match goal with
         | |- context [String.eqb ?a ?b] =>
             destruct (String.eqb_spec a b); subst;
             try discriminate; try congruence
         end;
  try reflexivity.

Local Ltac by_name p :=
  repeat match goal with
         | |- context [String.eqb p ?b] =>
             destruct (String.eqb_spec p b); subst; cbn; try congruence
         end;
  try reflexivity.

(** The switch of lines 8-22 as a table. *)
Lemma platform_table (p : string) :
  Platform.platform p
  = if String.eqb p "darwin" then "osx"
    else if String.eqb p "sunos" || String.eqb p "win32" then "windows"
    else p.
Proof.
  unfold Platform.platform, Switch.switch; cbn -[String.eqb]. by_eqb.
Qed.

(** The switch of lines 24-36 as a table. *)
Lemma arch_table (a : string) :
  Platform.arch a
  = if String.eqb a "x32" || String.eqb a "x64" then "amd64" else a.
Proof.
  unfold Platform.arch, Switch.switch; cbn -[String.eqb]. by_eqb.
Qed.

(** X1: the default executable is called "rclone.exe" exactly on the
    process platforms "sunos", "win32" and "windows", and "rclone" on all
    others. *)
Theorem executable_name_by_platform :
  executable_name rt
  = if String.eqb (process_platform rt) "sunos"
       || String.eqb (process_platform rt) "win32"
       || String.eqb (process_platform rt) "windows"
    then "rclone.exe" else "rclone".
Proof.
  unfold executable_name, platform. rewrite platform_table.
  generalize (process_platform rt) as p. intros p. by_name p.
Qed.

(** X2: a platform other than "darwin", "sunos" and "win32" and an
    architecture other than "x32" and "x64" come out of the resolver as
    they went in. *)
Theorem resolve_pass_through (p a : string) :
  p <> "darwin" -> p <> "sunos" -> p <> "win32" ->
  a <> "x32" -> a <> "x64" ->
  Platform.resolve p a = (p, a).
Proof.
  intros Hd Hs Hw H32 H64. unfold Platform.resolve.
  now rewrite platform_other, arch_other.
Qed.

(** X3: resolving what the resolver returned changes nothing. *)
Theorem resolve_idempotent (p a : string) :
  Platform.resolve (fst (Platform.resolve p a)) (snd (Platform.resolve p a))
  = Platform.resolve p a.
Proof.
  unfold Platform.resolve; cbn [fst snd]. f_equal.
  - rewrite !platform_table. by_name p.
  - rewrite !arch_table. by_name a.
Qed.

End ConstantFacts.

(** ** Flag marshaller *)

Section MoreMarshallerFacts.
Context {number : Type} (rt : runtime number).

Lemma flag_tokens_strings (entry : string * value number) :
  Forall (fun v => exists s, v = VStr s) (flag_tokens rt entry).
Proof.
  destruct entry as [key v]. unfold flag_tokens, push_flag, push.
  destruct (negb (is_boolean v)); cbn [app]; repeat constructor; eauto.
Qed.

Lemma flag_tokens_nonempty (entry : string * value number) :
  flag_tokens rt entry <> [].
Proof.
  destruct entry as [key v]. unfold flag_tokens, push_flag, push.
  destruct (negb (is_boolean v)); discriminate.
Qed.

(** X4: when the positional arguments are strings and the last argument
    is a flag object, every element of the argument vector is a string,
    whatever the values of the flags are. *)
Theorem api_args_strings
    (pos : list (value number)) (flags : value number) :
  Forall (fun v => exists s, v = VStr s) pos ->
  is_flag_object rt flags = true ->
  Forall (fun v => exists s, v = VStr s) (api_args rt (pos ++ [flags])).
Proof.
  intros Hpos Hflags. rewrite api_args_snoc, Hflags.
  apply Forall_app. split; [exact Hpos |].
  induction (Object_entries flags) as [| entry entries IH]; cbn [flat_map].
  - constructor.
  - apply Forall_app. split; [apply flag_tokens_strings | exact IH].
Qed.

(** X5: the argument vector is empty in one case only: the call has a
    single argument and it is a flag object without entries. *)
Theorem api_args_empty (args : list (value number)) :
  api_args rt args = [] <->
  exists flags,
    args = [flags] /\ is_flag_object rt flags = true
    /\ Object_entries flags = [].
Proof.
  split.
  - induction args as [| x pos _] using rev_ind.
    + intros H. discriminate H.
    + rewrite api_args_snoc.
      destruct (is_flag_object rt x) eqn:Hflags.
      * intros H. apply app_eq_nil in H as [-> Htokens].
        exists x. repeat split; [exact Hflags |].
        destruct (Object_entries x) as [| entry entries]; [reflexivity |].
        cbn [flat_map] in Htokens. apply app_eq_nil in Htokens as [H _].
        now apply flag_tokens_nonempty in H.
      * intros H. now apply app_eq_nil in H as [_ H].
  - intros (flags & -> & Hflags & Hnone).
    change [flags] with ([] ++ [flags]).
    now rewrite api_args_snoc, Hflags, Hnone.
Qed.

End MoreMarshallerFacts.

(** ** Promise-based API and [get] *)

Section MorePromiseFacts.
Context {number error : Type} (rt : runtime number).

(** X6: the promise of a call is still pending exactly when the
    subprocess has emitted nothing but chunks and ends of a standard
    error that had been silent: no "error", no end of standard output, no
    end of standard error after a chunk of it. *)
Theorem promises_pending_iff
    (args : list (value number)) (events : list (event error)) :
  snd (promises rt args events) = Pending <->
  forall before ev after,
    events = before ++ ev :: after ->
    match ev with
    | StdoutData _ | StderrData _ => True
    | StderrEnd => stderr_chunks before = []
    | Error _ | StdoutEnd => False
    end.
Proof.
  unfold promises; cbn [snd]. split.
  - intros Hpending before ev after ->.
    assert (Hbefore : settled (deliver before) = Pending).
    { destruct (settled (deliver before)) eqn:Hs; [reflexivity | |];
        rewrite deliver_app, fold_on_settled in Hpending; congruence. }
    assert (Herr : stderr (deliver before) = stderr_chunks before)
      by apply (fold_on_stderr before listening).
    destruct ev as [e | c | | c |]; try exact I.
    + rewrite (deliver_settling before after (Error e)
                 (Rejected (ReasonError e))) in Hpending;
        [discriminate | | discriminate].
      cbn. now rewrite Hbefore.
    + rewrite (deliver_settling before after StdoutEnd
                 (Fulfilled (Buffer_concat (stdout (deliver before)))))
        in Hpending; [discriminate | | discriminate].
      cbn. now rewrite Hbefore.
    + destruct (stderr_chunks before) as [| c cs] eqn:Hchunks;
        [reflexivity |].
      rewrite (deliver_settling before after StderrEnd
                 (Rejected (ReasonBuffer
                              (Buffer_concat (stderr (deliver before))))))
        in Hpending; [discriminate | | discriminate].
      cbn. now rewrite Herr, Hbefore.
  - induction events as [| ev events IH] using rev_ind; intros Hquiet.
    + reflexivity.
    + assert (Hbefore : settled (deliver events) = Pending).
      { apply IH. intros before ev' after ->.
        apply (Hquiet before ev' (after ++ [ev])).
        now rewrite <- app_assoc. }
      assert (Herr : stderr (deliver events) = stderr_chunks events)
        by apply (fold_on_stderr events listening).
      specialize (Hquiet events ev [] eq_refl).
      rewrite deliver_app. cbn [fold_left].
      destruct ev as [e | c | | c |]; try contradiction; cbn [on settled];
        try exact Hbefore.
      now rewrite Herr, Hquiet.
Qed.

(** X7: a response that delivers its chunks and ends fulfils the promise
    of [get] with the chunks concatenated in order, and nothing the
    transport emits afterwards, an error included, changes that. *)
Theorem get_response_body
    (url : string) (cs : list buffer) (rest : list (http_event error)) :
  fetched (get url (Response :: map ResponseData cs ++ ResponseEnd :: rest))
  = Fulfilled (Buffer_concat cs).
Proof.
  unfold get. cbn [fold_left]. rewrite fold_left_app.
  unfold on_http at 3; cbn. rewrite fold_on_http_data. cbn [fold_left app].
  rewrite fold_on_http_settled; cbn; [reflexivity | discriminate].
Qed.

(** X8: as long as no response has ended, the promise of [get] is
    pending, whatever else happened: a refused connection, a response
    cut off half way, or no answer at all. *)
Theorem get_pending_without_end
    (url : string) (events : list (http_event error)) :
  (forall ev, In ev events -> ev <> ResponseEnd) ->
  fetched (get url events) = Pending.
Proof. intros H. now apply fold_on_http_pending. Qed.

End MorePromiseFacts.

(** ** Self-updater *)

Section MoreSelfUpdateFacts.
Context {number : Type} (rt : runtime number).

(** The body of [selfupdate] once the argument is known not to be
    [null]; an argument left out reads like an object without keys. *)
Lemma selfupdate_unfold (fs : files) (argument : value number) :
  argument <> VNull ->
  selfupdate rt fs argument
  = let stable :=
      default_to
        (VBool (negb (truthy rt (default_to (VBool false)
                                            (member "beta" argument)))))
        (member "stable" argument) in
    let version := member "version" argument in
    if existsSync fs (RCLONE_EXECUTABLE rt)
    then ([], ReturnsChildProcess
                (api rt [VStr "selfupdate"; default_to (literal []) argument]))
    else
      let baseUrl :=
        if truthy rt stable then "https://downloads.rclone.org"
        else "https://beta.rclone.org" in
      if truthy rt (member "check" argument)
      then ([], ReturnsPromise (baseUrl ++ "/version.txt") ReportVersion)
      else
        (["Downloading rclone..."],
         ReturnsPromise
           (baseUrl ++ "/"
            ++ (if truthy rt version
                then to_string rt version ++ "/rclone-" ++ to_string rt version
                else "rclone-"
                     ++ (if truthy rt stable then "current" else "beta-latest"))
            ++ "-" ++ platform rt ++ "-" ++ arch rt ++ ".zip")
           InstallArchive).
Proof.
  intros Hnull. unfold selfupdate.
  destruct argument; try congruence; cbn [default_to literal];
    rewrite ?truthy_default_false; reflexivity.
Qed.

(** [stable] as the destructuring computes it. *)
Lemma truthy_stable (beta stable : value number) :
  truthy rt (default_to
               (VBool (negb (truthy rt (default_to (VBool false) beta))))
               stable)
  = match stable with
    | VUndefined => negb (truthy rt beta)
    | _ => truthy rt stable
    end.
Proof. destruct stable; cbn; now rewrite ?truthy_default_false. Qed.

(** X9: with no executable in place and no truthy [check], the call logs
    "Downloading rclone..." and fetches one archive: from the stable host
    when [stable] is truthy (given, or by default when [beta] is not),
    from the beta host otherwise; named after the pinned version when
    [version] is truthy, after the channel otherwise; for the resolved
    platform and architecture. *)
Theorem selfupdate_download
    (fs : files) (argument : value number) (stable : bool) :
  argument <> VNull ->
  existsSync fs (RCLONE_EXECUTABLE rt) = false ->
  truthy rt (member "check" argument) = false ->
  (member "stable" argument = VUndefined ->
   stable = negb (truthy rt (member "beta" argument))) ->
  (member "stable" argument <> VUndefined ->
   stable = truthy rt (member "stable" argument)) ->
  let version := member "version" argument in
  let archiveName :=
    (if truthy rt version
     then to_string rt version ++ "/rclone-" ++ to_string rt version
     else if stable then "rclone-current" else "rclone-beta-latest")%string in
  selfupdate rt fs argument
  = (["Downloading rclone..."],
     ReturnsPromise
       ((if stable then "https://downloads.rclone.org/"
         else "https://beta.rclone.org/")
        ++ archiveName ++ "-" ++ Platform.platform (process_platform rt)
        ++ "-" ++ Platform.arch (process_arch rt) ++ ".zip")
       InstallArchive).
Proof.
  intros Hnull Hexists Hcheck Hdefault Hgiven version archiveName.
  rewrite selfupdate_unfold by exact Hnull. cbn zeta.
  rewrite Hexists, Hcheck, truthy_stable.
  assert (Hstable : match member "stable" argument with
                    | VUndefined => negb (truthy rt (member "beta" argument))
                    | _ => truthy rt (member "stable" argument)
                    end = stable).
  { destruct (member "stable" argument) eqn:Hs;
      try (rewrite Hgiven by discriminate; reflexivity).
    now rewrite Hdefault. }
  rewrite Hstable. subst archiveName version.
  unfold platform, arch.
  destruct stable, (truthy rt (member "version" argument)); reflexivity.
Qed.

(** X10: an argument that has none of the four options, be it left out,
    an empty object, a string, a number or a list, selects the current
    stable release. *)
Theorem selfupdate_without_options (fs : files) (argument : value number) :
  argument <> VNull ->
  existsSync fs (RCLONE_EXECUTABLE rt) = false ->
  (forall key, In key ["beta"; "stable"; "version"; "check"] ->
               member key argument = VUndefined) ->
  selfupdate rt fs argument
  = (["Downloading rclone..."],
     ReturnsPromise
       ("https://downloads.rclone.org/rclone-current-"
        ++ Platform.platform (process_platform rt)
        ++ "-" ++ Platform.arch (process_arch rt) ++ ".zip")
       InstallArchive).
Proof.
  intros Hnull Hexists Hnone.
  rewrite selfupdate_unfold by exact Hnull. cbn zeta.
  rewrite Hexists, !Hnone by (cbn; tauto). reflexivity.
Qed.

(** X11: when the executable is in place, a flag object given to
    [selfupdate] reaches the executable as the flags of its "selfupdate"
    command, in the caller's order and without the defaults of the
    destructuring; any other argument but [undefined] and [null] is passed
    on as it is. *)
Theorem selfupdate_delegate_forwards (fs : files) (argument : value number) :
  existsSync fs (RCLONE_EXECUTABLE rt) = true ->
  (is_flag_object rt argument = true ->
   selfupdate rt fs argument
   = ([], ReturnsChildProcess
            (spawn (RCLONE_EXECUTABLE rt)
                   (VStr "selfupdate"
                    :: flat_map (flag_tokens rt) (Object_entries argument)))))
  /\ (is_flag_object rt argument = false ->
      argument <> VUndefined -> argument <> VNull ->
      selfupdate rt fs argument
      = ([], ReturnsChildProcess
               (spawn (RCLONE_EXECUTABLE rt) [VStr "selfupdate"; argument]))).
Proof.
  intros Hexists. split.
  - intros Hflags.
    assert (Hnull : argument <> VNull) by (intros ->; discriminate Hflags).
    assert (Hundef : default_to (literal []) argument = argument)
      by (destruct argument; try reflexivity; discriminate Hflags).
    rewrite selfupdate_unfold by exact Hnull. cbn zeta.
    rewrite Hexists, Hundef. unfold api.
    change [VStr "selfupdate"; argument]
      with ([VStr (number := number) "selfupdate"] ++ [argument]).
    now rewrite api_args_snoc, Hflags.
  - intros Hflags Hundef Hnull.
    assert (Hsame : default_to (literal []) argument = argument)
      by (destruct argument; try reflexivity; congruence).
    rewrite selfupdate_unfold by exact Hnull. cbn zeta.
    rewrite Hexists, Hsame. unfold api.
    change [VStr "selfupdate"; argument]
      with ([VStr (number := number) "selfupdate"] ++ [argument]).
    now rewrite api_args_snoc, Hflags.
Qed.

End MoreSelfUpdateFacts.

(** ** Installing from an archive *)

Section InstallFacts.
Context {number : Type} (rt : runtime number).

(** The test of line 135, on an entry. *)
Lemma test_entry (e : zip_entry) :
  Regex.test rclone_pattern (name e)
  = Str.ends_with "rclone" (name e) || Str.ends_with "rclone.exe" (name e).
Proof. apply test_rclone_pattern. Qed.

Lemma filter_test (entries : list zip_entry) :
  filter (fun e => Regex.test rclone_pattern (name e)) entries
  = filter (fun e => Str.ends_with "rclone" (name e)
                     || Str.ends_with "rclone.exe" (name e))
           entries.
Proof. apply filter_ext, test_entry. Qed.

(** The loop neither fetches nor spawns. *)
Lemma install_entries_local (entries : list zip_entry) :
  forall fs,
    filter is_fetch (fst (install_entries rt entries fs)) = []
    /\ existsb is_spawn (fst (install_entries rt entries fs)) = false.
Proof.
  induction entries as [| e entries IH]; intros fs; cbn [install_entries].
  - now split.
  - destruct (Regex.test rclone_pattern (name e)); [| apply IH].
    destruct (existsSync _ _); [| now split].
    specialize (IH (extracted_path rt e (RCLONE_DIR rt) :: fs)).
    destruct (install_entries rt entries _) as [effects stop].
    exact IH.
Qed.

(** X12: a call of [selfupdate] either starts the executable or fetches
    from the network, never both: with the executable in place its only
    effect is one spawn; without it, nothing is spawned and exactly one
    request is made, whatever the answer and the archive are. *)
Theorem selfupdate_spawns_or_fetches
    (fs : files) (argument : value number) (body : option buffer) :
  argument <> VNull ->
  (existsSync fs (RCLONE_EXECUTABLE rt) = true ->
   exists p, fst (selfupdate_effects rt fs argument body) = [Spawn p])
  /\ (existsSync fs (RCLONE_EXECUTABLE rt) = false ->
      existsb is_spawn (fst (selfupdate_effects rt fs argument body)) = false
      /\ List.length
           (filter is_fetch (fst (selfupdate_effects rt fs argument body)))
         = 1).
Proof.
  intros Hnull. unfold selfupdate_effects.
  rewrite selfupdate_unfold by exact Hnull. cbn zeta.
  split; intros Hexists; rewrite Hexists.
  - eexists. reflexivity.
  - assert (Hk : forall k b,
               filter is_fetch (fst (run_continuation rt k b fs)) = []
               /\ existsb is_spawn (fst (run_continuation rt k b fs)) = false).
    { intros [|] b; cbn [run_continuation]; [now split |].
      destruct (getEntries rt b) as [entries |]; [| now split].
      pose proof (install_entries_local entries fs) as H.
      destruct (install_entries rt entries fs) as [effects stop]. exact H. }
    destruct (truthy rt (member "check" argument));
      destruct body as [b |]; cbn [map app fst]; try (now split);
      match goal with
      | |- context [run_continuation rt ?k b fs] =>
          destruct (Hk k b) as [Hfetch Hspawn];
          destruct (run_continuation rt k b fs) as [effects stop];
          cbn [fst] in *; cbn; now rewrite Hfetch, Hspawn
      end.
Qed.

(** [s.replace(pat, rep)] finds nothing in a string shorter than the
    pattern. *)
Lemma prefix_length (a b : string) :
  String.prefix a b = true -> String.length a <= String.length b.
Proof.
  revert b. induction a as [| c a IH]; intros b; [cbn; lia |].
  destruct b as [| c' b]; cbn; [discriminate |].
  destruct (ascii_dec c c'); [| discriminate].
  intros H. apply IH in H. lia.
Qed.

Lemma replace_short (pat rep s : string) :
  String.length s < String.length pat -> Str.replace pat rep s = s.
Proof.
  induction s as [| c s IH]; intros Hlen; cbn [Str.replace].
  - destruct (String.prefix pat "") eqn:Hp; [| reflexivity].
    apply prefix_length in Hp. lia.
  - destruct (String.prefix pat (String c s)) eqn:Hp.
    + apply prefix_length in Hp. lia.
    + rewrite IH; [reflexivity | cbn in Hlen; lia].
Qed.

Lemma prefix_refl (s : string) : String.prefix s s = true.
Proof.
  induction s as [| c s IH]; cbn; [reflexivity |].
  now destruct (ascii_dec c c).
Qed.

Lemma substring_none (n : nat) (s : string) : String.substring n 0 s = "".
Proof.
  revert s. induction n as [| n IH]; intros [| c s]; cbn; auto.
Qed.

(** X13: the report of line 140 names the directory of an entry that
    lies one level deep in the archive, and the entry itself when it
    lies at the top. *)
Theorem report_names_directory (dir base : string) :
  (forall c, In c (list_ascii_of_string dir) -> c <> "/"%char) ->
  Str.replace ("/" ++ base) "" (dir ++ "/" ++ base) = dir
  /\ Str.replace ("/" ++ base) "" base = base.
Proof.
  intros Hdir. split.
  - induction dir as [| c dir IH]; cbn [append Str.replace].
    + change (String "/" base) with ("/" ++ base)%string.
      rewrite prefix_refl, Nat.sub_diag. cbn [append].
      apply substring_none.
    + assert (Hc : c <> "/"%char) by (apply Hdir; now left).
      cbn [String.prefix].
      destruct (ascii_dec "/" c) as [Heq | _]; [now destruct Hc |].
      f_equal. apply IH. intros c' Hin. apply Hdir. now right.
  - apply replace_short. cbn. lia.
Qed.

(** X14: an archive without an entry whose base name ends in "rclone" or
    "rclone.exe" installs nothing and raises nothing: the callback logs
    "Extracting rclone..." and the file system is as it was. *)
Theorem install_without_executable
    (fs : files) (body : buffer) (entries : list zip_entry) :
  getEntries rt body = Some entries ->
  (forall e, In e entries ->
             Str.ends_with "rclone" (name e)
             || Str.ends_with "rclone.exe" (name e) = false) ->
  run_continuation rt InstallArchive body fs
  = ([ConsoleLog "Extracting rclone..."], None)
  /\ apply_effects rt (fst (run_continuation rt InstallArchive body fs)) fs
     = fs.
Proof.
  intros Hzip Hnone.
  assert (Hfilter : filter (fun e => Regex.test rclone_pattern (name e))
                           entries = []).
  { rewrite filter_test. clear Hzip.
    induction entries as [| e entries IH]; [reflexivity |].
    cbn [filter]. rewrite Hnone by now left.
    apply IH. intros e' Hin. apply Hnone. now right. }
  assert (Hrun : run_continuation rt InstallArchive body fs
                 = ([ConsoleLog "Extracting rclone..."], None)).
  { cbn [run_continuation]. rewrite Hzip.
    rewrite install_entries_first; rewrite Hfilter; [reflexivity |].
    discriminate. }
  now rewrite Hrun.
Qed.

(** Entries that fail the test are passed over. *)
Lemma install_entries_skip (before entries : list zip_entry) (fs : files) :
  (forall x, In x before -> Regex.test rclone_pattern (name x) = false) ->
  install_entries rt (before ++ entries) fs = install_entries rt entries fs.
Proof.
  induction before as [| x before IH]; intros Hskip; [reflexivity |].
  cbn [app install_entries]. rewrite Hskip by now left.
  apply IH. intros y Hin. apply Hskip. now right.
Qed.

(** X15: when the default executable does not exist and the first entry
    that passes the test is extracted to another path, [chmodSync]
    throws: that one entry is extracted, nothing is reported, and no
    later entry is looked at. *)
Theorem install_stops_at_missing_executable
    (fs : files) (body : buffer)
    (before : list zip_entry) (e : zip_entry) (after : list zip_entry) :
  getEntries rt body = Some (before ++ e :: after) ->
  (forall x, In x before ->
             Str.ends_with "rclone" (name x)
             || Str.ends_with "rclone.exe" (name x) = false) ->
  Str.ends_with "rclone" (name e) || Str.ends_with "rclone.exe" (name e)
  = true ->
  existsSync fs (DEFAULT_RCLONE_EXECUTABLE rt) = false ->
  extracted_path rt e (RCLONE_DIR rt) <> DEFAULT_RCLONE_EXECUTABLE rt ->
  run_continuation rt InstallArchive body fs
  = ([ ConsoleLog "Extracting rclone...";
       ExtractEntryTo e (RCLONE_DIR rt) false true ],
     Some (ENOENT (DEFAULT_RCLONE_EXECUTABLE rt))).
Proof.
  intros Hzip Hskip Hmatch Hfs Hpath.
  cbn [run_continuation]. rewrite Hzip.
  rewrite install_entries_skip
    by (intros x Hin; rewrite test_entry; now apply Hskip).
  cbn [install_entries]. rewrite test_entry, Hmatch, existsSync_cons, Hfs.
  destruct (String.eqb_spec (DEFAULT_RCLONE_EXECUTABLE rt)
                            (extracted_path rt e (RCLONE_DIR rt)))
    as [Heq | _]; [now destruct Hpath |].
  reflexivity.
Qed.

(** An extraction the callback performs, traced back to the archive. *)
Lemma run_continuation_extraction
    (fs : files) (body : buffer)
    (e : zip_entry) (target : string) (m o : bool) :
  In (ExtractEntryTo e target m o)
     (fst (run_continuation rt InstallArchive body fs)) ->
  (exists entries, getEntries rt body = Some entries /\ In e entries)
  /\ (Str.ends_with "rclone" (name e)
      || Str.ends_with "rclone.exe" (name e)) = true
  /\ target = RCLONE_DIR rt /\ m = false /\ o = true.
Proof.
  cbn [run_continuation].
  destruct (getEntries rt body) as [entries |].
  - pose proof (install_entries_only_matching rt entries fs e target m o) as H.
    destruct (install_entries rt entries fs) as [effects stop].
    cbn [fst In] in *. intros [Hlog | Hin]; [discriminate Hlog |].
    destruct (H Hin) as (Hentry & Hrest).
    split; [now exists entries | exact Hrest].
  - cbn. intros [H | []]. discriminate H.
Qed.

(** X16: whatever the archive and the file system, and also when the
    loop is cut short, the callback asks adm-zip to extract only entries
    of the archive whose base name ends in "rclone" or "rclone.exe",
    always without their directories, into the install directory,
    overwriting what is there; and every call of [chmodSync] it makes
    itself (line 138) is on the default executable, with mode [0o755].
    What adm-zip does to a file while it extracts it, its mode
    included, lies behind [ExtractEntryTo] and is not spoken of. *)
Theorem install_touches_only_executables
    (fs : files) (body : buffer) :
  (forall e target m o,
      In (ExtractEntryTo e target m o)
         (fst (run_continuation rt InstallArchive body fs)) ->
      (exists entries, getEntries rt body = Some entries /\ In e entries)
      /\ (Str.ends_with "rclone" (name e)
          || Str.ends_with "rclone.exe" (name e)) = true
      /\ target = RCLONE_DIR rt /\ m = false /\ o = true)
  /\ (forall path mode,
        In (ChmodSync path mode)
           (fst (run_continuation rt InstallArchive body fs)) ->
        path = DEFAULT_RCLONE_EXECUTABLE rt /\ mode = 493%N).
Proof.
  split; [intros e target m o; apply run_continuation_extraction |].
  intros path mode. cbn [run_continuation].
  destruct (getEntries rt body) as [entries |];
    [| cbn; intros [H | []]; discriminate H].
  assert (Hloop : forall fs0,
             In (ChmodSync path mode) (fst (install_entries rt entries fs0)) ->
             path = DEFAULT_RCLONE_EXECUTABLE rt /\ mode = 493%N).
  { induction entries as [| e0 entries IH]; intros fs0; cbn [install_entries].
    - intros [].
    - destruct (Regex.test rclone_pattern (name e0)); [| apply IH].
      destruct (existsSync _ _).
      + specialize (IH (extracted_path rt e0 (RCLONE_DIR rt) :: fs0)).
        destruct (install_entries rt entries _) as [effects stop].
        cbn [fst In] in *.
        intros [H | [H | [H | H]]]; try discriminate H; [| now apply IH].
        injection H as <- <-. now split.
      + cbn. intros [H | []]. discriminate H. }
  specialize (Hloop fs).
  destruct (install_entries rt entries fs) as [effects stop].
  cbn [fst In] in *. intros [H | H]; [discriminate H | now apply Hloop].
Qed.

End InstallFacts.

(** ** Installing and calling again *)

Section ReinstallFacts.
Context {number : Type} (rt : runtime number).

(** X17: the pattern of line 135 accepts a name exactly when the name
    ends in "rclone" or in "rclone.exe": anything may come before, nothing
    after, and letters match in their case only. *)
Theorem rclone_pattern_accepts (s : string) :
  Regex.test rclone_pattern s = true <->
  exists before,
    s = (before ++ "rclone")%string \/ s = (before ++ "rclone.exe")%string.
Proof.
  rewrite test_rclone_pattern, orb_true_iff, !ends_with_spec. split.
  - intros [(before & H) | (before & H)]; exists before; auto.
  - intros (before & [H | H]); [left | right]; now exists before.
Qed.

(** Files stay, and an extraction adds its target. *)
Lemma apply_effects_keeps (effects : list (effect number)) :
  forall fs p,
    existsSync fs p = true -> existsSync (apply_effects rt effects fs) p = true.
Proof.
  unfold apply_effects.
  induction effects as [| eff effects IH]; intros fs p H; cbn [fold_left].
  - exact H.
  - apply IH. destruct eff; cbn [apply_effect]; try exact H.
    now rewrite existsSync_cons, H, orb_true_r.
Qed.

Lemma apply_effects_extracted (effects : list (effect number)) :
  forall fs e target o,
    In (ExtractEntryTo e target false o) effects ->
    existsSync (apply_effects rt effects fs) (join rt target (name e)) = true.
Proof.
  induction effects as [| eff effects IH]; intros fs e target o; [intros [] |].
  intros [-> | Hin].
  - apply (apply_effects_keeps effects). cbn [apply_effect].
    now rewrite existsSync_cons, String.eqb_refl.
  - apply (IH _ e target o Hin).
Qed.

(** X18: installing makes the next call delegate.  Without an override
    of the executable's location, once an archive whose first entry
    passing the test carries the executable's name has been installed,
    [selfupdate] finds the executable and hands the call to it. *)
Theorem install_then_delegate
    (fs : files) (body : buffer) (entries : list zip_entry)
    (e : zip_entry) (rest : list zip_entry) (argument : value number) :
  env_RCLONE_EXECUTABLE rt = None ->
  getEntries rt body = Some entries ->
  filter (fun x => Str.ends_with "rclone" (name x)
                   || Str.ends_with "rclone.exe" (name x))
         entries
  = e :: rest ->
  name e = executable_name rt ->
  argument <> VNull ->
  exists effects p,
    run_continuation rt InstallArchive body fs = (effects, None)
    /\ selfupdate rt (apply_effects rt effects fs) argument
       = ([], ReturnsChildProcess p).
Proof.
  intros Henv Hzip Hfilter Hname Hnull.
  assert (Hrun : run_continuation rt InstallArchive body fs
                 = (ConsoleLog "Extracting rclone..."
                    :: flat_map (installed rt) (e :: rest), None)).
  { cbn [run_continuation]. rewrite Hzip.
    rewrite install_entries_first; rewrite filter_test, Hfilter;
      [reflexivity |].
    intros e' rest' [= <- <-]. now left. }
  eexists _, _. split; [exact Hrun |].
  rewrite selfupdate_unfold by exact Hnull. cbn zeta.
  assert (Hexists : existsSync
                      (apply_effects rt
                         (ConsoleLog "Extracting rclone..."
                          :: flat_map (installed rt) (e :: rest)) fs)
                      (RCLONE_EXECUTABLE rt) = true).
  { unfold RCLONE_EXECUTABLE. rewrite Henv.
    unfold DEFAULT_RCLONE_EXECUTABLE. rewrite <- Hname.
    apply (apply_effects_extracted _ fs e (RCLONE_DIR rt) true).
    right. now left. }
  now rewrite Hexists.
Qed.

End ReinstallFacts.

(** * The further properties at work on the sample host *)

(** Linux on ARM. *)
Lemma resolve_pass_through_witness :
  Platform.resolve "linux" "arm" = ("linux", "arm").
Proof. apply resolve_pass_through; discriminate. Defined.

(** [rclone.copy("a:", "b:", { "max-depth": 2, "dry-run": true })]. *)
Lemma api_args_strings_witness :
  Forall (fun v => exists s, v = VStr s)
         (api_args Sample.linux
            ([VStr "copy"; VStr "a:"; VStr "b:"]
             ++ [literal [("max-depth", VNum 2%Z); ("dry-run", VBool true)]])).
Proof.
  apply (api_args_strings Sample.linux).
  - repeat constructor; eauto.
  - reflexivity.
Defined.

(** [rclone({})]. *)
Lemma api_args_empty_witness :
  api_args Sample.linux [literal []] = [].
Proof.
  apply (proj2 (api_args_empty Sample.linux [literal []])).
  exists (literal []). repeat split.
Defined.

(** A process that closes a silent standard error and goes on writing. *)
Lemma promises_pending_iff_witness :
  snd (promises (error := Sample.error) Sample.linux [VStr "ls"]
         [StderrEnd; StdoutData "a"])
  = Pending.
Proof.
  apply (proj2 (promises_pending_iff (error := Sample.error) Sample.linux
                  [VStr "ls"] [StderrEnd; StdoutData "a"])).
  intros before ev after Hsplit.
  destruct before as [| b1 [| b2 before]]; cbn in Hsplit.
  - injection Hsplit as <- _. reflexivity.
  - injection Hsplit as _ <- _. exact I.
  - injection Hsplit as _ _ Hrest. destruct before; discriminate Hrest.
Defined.

(** A download cut off after the first chunk. *)
Lemma get_pending_without_end_witness :
  fetched (get (error := Sample.error) "https://downloads.rclone.org/x.zip"
             [Response; ResponseData "PK"; ResponseError "ECONNRESET"])
  = Pending.
Proof.
  apply get_pending_without_end.
  intros ev [<- | [<- | [<- | []]]]; discriminate.
Defined.

(** [selfupdate({ version: "v1.60.0", beta: true })] on Linux. *)
Lemma selfupdate_download_witness :
  selfupdate Sample.linux []
    (literal [("version", VStr "v1.60.0"); ("beta", VBool true)])
  = (["Downloading rclone..."],
     ReturnsPromise
       "https://beta.rclone.org/v1.60.0/rclone-v1.60.0-linux-amd64.zip"
       InstallArchive).
Proof.
  apply (selfupdate_download Sample.linux []
           (literal [("version", VStr "v1.60.0"); ("beta", VBool true)])
           false).
  - discriminate.
  - reflexivity.
  - reflexivity.
  - reflexivity.
  - intros H. now destruct H.
Defined.

(** [selfupdate("beta")]: the string has no option to read. *)
Lemma selfupdate_without_options_witness :
  selfupdate Sample.linux [] (VStr "beta")
  = (["Downloading rclone..."],
     ReturnsPromise
       "https://downloads.rclone.org/rclone-current-linux-amd64.zip"
       InstallArchive).
Proof.
  apply (selfupdate_without_options Sample.linux [] (VStr "beta")).
  - discriminate.
  - reflexivity.
  - reflexivity.
Defined.

(** [selfupdate({ check: true, beta: false })] and [selfupdate("now")]
    with the executable in place. *)
Lemma selfupdate_delegate_forwards_witness :
  selfupdate Sample.linux ["/app/bin/rclone"]
    (literal [("check", VBool true); ("beta", VBool false)])
  = ([], ReturnsChildProcess
           (ChildProcess "/app/bin/rclone"
              [VStr "selfupdate"; VStr "--check"; VStr "--no-beta"]))
  /\ selfupdate Sample.linux ["/app/bin/rclone"] (VStr "now")
     = ([], ReturnsChildProcess
              (ChildProcess "/app/bin/rclone" [VStr "selfupdate"; VStr "now"])).
Proof.
  split.
  - apply (selfupdate_delegate_forwards Sample.linux ["/app/bin/rclone"]
             (literal [("check", VBool true); ("beta", VBool false)]) eq_refl).
    reflexivity.
  - apply (selfupdate_delegate_forwards Sample.linux ["/app/bin/rclone"]
             (VStr "now") eq_refl); [reflexivity | discriminate ..].
Defined.

(** One call with the executable in place, one without. *)
Lemma selfupdate_spawns_or_fetches_witness :
  (exists p,
      fst (selfupdate_effects Sample.linux ["/app/bin/rclone"] VUndefined None)
      = [Spawn p])
  /\ existsb is_spawn
       (fst (selfupdate_effects
               (Sample.runtime_of Sample.release "linux" "x64" None)
               [] VUndefined (Some "archive")))
     = false.
Proof.
  split.
  - apply (selfupdate_spawns_or_fetches Sample.linux ["/app/bin/rclone"]
             VUndefined None); [discriminate | reflexivity].
  - apply (selfupdate_spawns_or_fetches
             (Sample.runtime_of Sample.release "linux" "x64" None)
             [] VUndefined (Some "archive")); [discriminate | reflexivity].
Defined.

(** The entry of a release archive. *)
Lemma report_names_directory_witness :
  Str.replace "/rclone" "" "rclone-v1.2.3-linux-amd64/rclone"
  = "rclone-v1.2.3-linux-amd64"
  /\ Str.replace "/rclone" "" "rclone" = "rclone".
Proof.
  apply (report_names_directory "rclone-v1.2.3-linux-amd64" "rclone").
  intros c Hin. cbn in Hin.
  repeat (destruct Hin as [<- | Hin]; [discriminate |]).
  destruct Hin.
Defined.

(** An archive of documentation. *)
Lemma install_without_executable_witness :
  run_continuation
    (Sample.runtime_of [ZipEntry "README.txt" "docs/README.txt"]
                       "linux" "x64" None)
    InstallArchive "archive" []
  = ([ConsoleLog "Extracting rclone..."], None).
Proof.
  apply (install_without_executable
           (Sample.runtime_of [ZipEntry "README.txt" "docs/README.txt"]
                              "linux" "x64" None)
           [] "archive" [ZipEntry "README.txt" "docs/README.txt"] eq_refl).
  intros e [<- | []]. reflexivity.
Defined.

(** The Windows archive on Linux. *)
Lemma install_stops_at_missing_executable_witness :
  run_continuation
    (Sample.runtime_of
       [ ZipEntry "README.txt" "rclone-windows/README.txt";
         ZipEntry "rclone.exe" "rclone-windows/rclone.exe";
         ZipEntry "rclone" "rclone-windows/rclone" ]
       "linux" "x64" None)
    InstallArchive "archive" []
  = ([ ConsoleLog "Extracting rclone...";
       ExtractEntryTo (ZipEntry "rclone.exe" "rclone-windows/rclone.exe")
                      "/app/bin" false true ],
     Some (ENOENT "/app/bin/rclone")).
Proof.
  apply (install_stops_at_missing_executable
           (Sample.runtime_of
              [ ZipEntry "README.txt" "rclone-windows/README.txt";
                ZipEntry "rclone.exe" "rclone-windows/rclone.exe";
                ZipEntry "rclone" "rclone-windows/rclone" ]
              "linux" "x64" None)
           [] "archive"
           [ZipEntry "README.txt" "rclone-windows/README.txt"]
           (ZipEntry "rclone.exe" "rclone-windows/rclone.exe")
           [ZipEntry "rclone" "rclone-windows/rclone"]).
  - reflexivity.
  - intros x [<- | []]. reflexivity.
  - reflexivity.
  - reflexivity.
  - discriminate.
Defined.

(** The member "myrclone" is extracted, and it ends in "rclone". *)
Lemma install_touches_only_executables_witness :
  Str.ends_with "rclone" (name Sample.lookalike)
  || Str.ends_with "rclone.exe" (name Sample.lookalike)
  = true.
Proof.
  destruct (install_touches_only_executables
              (Sample.runtime_of (Sample.release ++ [Sample.lookalike])
                                 "linux" "x64" None)
              [] "archive")
    as [Hextract _].
  destruct (Hextract Sample.lookalike "/app/bin" false true)
    as (_ & Hname & _).
  - cbn. do 4 right. left. reflexivity.
  - exact Hname.
Defined.

(** "myrclone" passes the test. *)
Lemma rclone_pattern_accepts_witness :
  Regex.test rclone_pattern "myrclone" = true.
Proof.
  apply (proj2 (rclone_pattern_accepts "myrclone")).
  exists "my". now left.
Defined.

(** A release installed on Linux, then [selfupdate()] again. *)
Lemma install_then_delegate_witness :
  exists effects p,
    run_continuation (Sample.runtime_of Sample.release "linux" "x64" None)
                     InstallArchive "archive" []
    = (effects, None)
    /\ selfupdate (Sample.runtime_of Sample.release "linux" "x64" None)
                  (apply_effects
                     (Sample.runtime_of Sample.release "linux" "x64" None)
                     effects [])
                  VUndefined
       = ([], ReturnsChildProcess p).
Proof.
  apply (install_then_delegate
           (Sample.runtime_of Sample.release "linux" "x64" None)
           [] "archive" Sample.release
           (ZipEntry "rclone" "rclone-v1.2.3-linux-amd64/rclone") []).
  - reflexivity.
  - reflexivity.
  - reflexivity.
  - reflexivity.
  - discriminate.
Defined.
